(** * NeuralNetwork.py: the Layer and NeuralNetwork classes

    A shallow embedding of [src/NeuralNetwork.py].  Python objects are
    records, a method is a function from its arguments and the object to an
    outcome and the object after the call, and an exception is an outcome
    that still carries the (possibly half-mutated) object.  The arithmetic
    of Python numbers and the [Perceptron] and [Math] modules, which the
    file imports, are interfaces; the code of [Layer] and [NeuralNetwork]
    is written once over them. *)

From Stdlib Require Import ZArith List Bool Arith Lia QArith Qabs.
Import ListNotations.
Close Scope Q_scope.

Set Implicit Arguments.

(** ** Exceptions *)

(** The built-in exception classes the code can raise. *)
Inductive exn_kind : Type :=
| AssertionError
| IndexError
| ValueError
| TypeError
| ZeroDivisionError
| OverflowError.

(** The function whose frame raised: the last line of the traceback. *)
Inductive site : Type :=
| in_Layer_init
| in_Layer_backward
| in_NeuralNetwork_init
| in_train_instance
| in_test_instance
| in_test
| in_Perceptron.

Record exn : Type := Raised { kind : exn_kind; origin : site }.

Inductive outcome (E A : Type) : Type :=
| Ok (a : A)
| Raise (e : E).

Arguments Ok {E A} a.
Arguments Raise {E A} e.

(** An exception that escapes a callee is seen by the caller with the
    callee's frame as its origin. *)
Definition escaping {A : Type} (s : site) (r : outcome exn_kind A)
  : outcome exn A :=
  match r with
  | Ok a => Ok a
  | Raise k => Raise (Raised k s)
  end.

(** ** Methods: state and exceptions *)

(** [M S E A]: a computation on an object of class [S] that returns an [A] or
    raises an [E]; the object after the call is returned in both cases. *)
Definition M (S E A : Type) : Type := S -> outcome E A * S.

Definition ret {S E A : Type} (a : A) : M S E A := fun s => (Ok a, s).

Definition raise {S E A : Type} (e : E) : M S E A := fun s => (Raise e, s).

Definition bind {S E A B : Type} (m : M S E A) (k : A -> M S E B) : M S E B :=
  fun s =>
    match m s with
    | (Ok a, s') => k a s'
    | (Raise e, s') => (Raise e, s')
    end.

Declare Scope py_scope.
Delimit Scope py_scope with py.
Notation "x <- m ;; k" := (bind m (fun x => k))
  (at level 61, m at next level, right associativity) : py_scope.

(** A pure expression that may raise, evaluated inside a method. *)
Definition eval {S E A : Type} (r : outcome E A) : M S E A := fun s => (r, s).

(** [for o in os: m(o)], collecting what each call returns (a list
    comprehension over objects).  The objects are mutated in place; at the
    first exception the loop stops and the later objects are untouched. *)
Fixpoint for_each {O E A : Type} (m : M O E A) (os : list O)
  : outcome E (list A) * list O :=
  match os with
  | [] => (Ok [], [])
  | o :: rest =>
      match m o with
      | (Raise e, o') => (Raise e, o' :: rest)
      | (Ok a, o') =>
          match for_each m rest with
          | (Ok l, rest') => (Ok (a :: l), o' :: rest')
          | (Raise e, rest') => (Raise e, o' :: rest')
          end
      end
  end.

(** [for o, b in zip(os, bs): m(o, b)]: [zip] stops at the shorter list. *)
Fixpoint for_zip {O B E : Type} (m : B -> M O E unit) (os : list O)
  (bs : list B) : outcome E unit * list O :=
  match os, bs with
  | o :: rest, b :: bs' =>
      match m b o with
      | (Raise e, o') => (Raise e, o' :: rest)
      | (Ok _, o') =>
          let (r, rest') := for_zip m rest bs' in (r, o' :: rest')
      end
  | _, _ => (Ok tt, os)
  end.

(** [for o in os: x = m(o, x)]: a loop that threads one variable. *)
Fixpoint for_acc {O E A : Type} (m : A -> M O E A) (os : list O) (x : A)
  : outcome E A * list O :=
  match os with
  | [] => (Ok x, [])
  | o :: rest =>
      match m x o with
      | (Raise e, o') => (Raise e, o' :: rest)
      | (Ok x', o') =>
          let (r, rest') := for_acc m rest x' in (r, o' :: rest')
      end
  end.

(** [[f(a) for a in l]] where [f] works on a state [S] (here: the random
    generator) and may raise. *)
Fixpoint comprehension {S E A B : Type} (f : A -> M S E B) (l : list A)
  : M S E (list B) :=
  match l with
  | [] => ret []
  | a :: l' =>
      (b <- f a ;; bs <- comprehension f l' ;; ret (b :: bs))%py
  end.

(** ** Python lists *)

(** [l[-1]] *)
Definition getitem_last {A : Type} (l : list A) : outcome exn_kind A :=
  match l with
  | [] => Raise IndexError
  | x :: l' => Ok (last l' x)
  end.

(** [l[i]] for a Python integer [i]; a negative [i] counts from the end. *)
Definition py_index_of {A : Type} (l : list A) (i : Z) : option nat :=
  let n := Z.of_nat (length l) in
  if ((0 <=? i) && (i <? n))%Z then Some (Z.to_nat i)
  else if ((- n <=? i) && (i <? 0))%Z then Some (Z.to_nat (n + i))
  else None.

Definition getitem {A : Type} (l : list A) (i : Z) : outcome exn_kind A :=
  match py_index_of l i with
  | Some k =>
      match nth_error l k with
      | Some x => Ok x
      | None => Raise IndexError
      end
  | None => Raise IndexError
  end.

Fixpoint set_nth {A : Type} (l : list A) (k : nat) (v : A) : list A :=
  match l, k with
  | [], _ => []
  | _ :: l', O => v :: l'
  | x :: l', S k' => x :: set_nth l' k' v
  end.

(** [l[i] = v] *)
Definition setitem {A : Type} (l : list A) (i : Z) (v : A)
  : outcome exn_kind (list A) :=
  match py_index_of l i with
  | Some k => Ok (set_nth l k v)
  | None => Raise IndexError
  end.

(** [list(enumerate(l))] *)
Definition enumerate {A : Type} (l : list A) : list (Z * A) :=
  combine (map Z.of_nat (seq 0 (length l))) l.

(** [list(range(n))] *)
Definition range (n : Z) : list Z := map Z.of_nat (seq 0 (Z.to_nat n)).

(** [functools.reduce(f, l)] without an initial value. *)
Definition reduce {A : Type} (f : A -> A -> A) (l : list A)
  : outcome exn_kind A :=
  match l with
  | [] => Raise TypeError
  | x :: l' => Ok (fold_left f l' x)
  end.

(** [for a in l: x = body(a, x)] inside a method of the object [S]. *)
Fixpoint for_in {S E A X : Type} (body : A -> X -> M S E X) (l : list A)
  (x : X) : M S E X :=
  match l with
  | [] => ret x
  | a :: l' => (x' <- body a x ;; for_in body l' x')%py
  end.

(** ** Python numbers *)

(** The operations the code applies to numbers (features, weights, outputs;
    Python [float], or [int] where the code writes a literal).  [num_int] is
    [int(x)], which raises on a value that has no integer part;
    [num_truediv a b] is [a / b] on two [int]s with [b] not zero. *)
Class Number (R : Type) : Type := {
  num_0 : R;
  num_1 : R;
  num_add : R -> R -> R;
  num_sub : R -> R -> R;
  num_mul : R -> R -> R;
  num_gt : R -> R -> bool;
  num_eq : R -> R -> bool;
  num_int : R -> outcome exn_kind Z;
  num_truediv : Z -> Z -> R
}.

(** [>] is a strict order in which any two numbers compare, and [==] holds
    between the numbers neither of which is above the other.  True of
    Python's [int] and of every [float] but NaN. *)
Class NumberOrder (R : Type) (N : Number R) : Prop := {
  num_gt_asym : forall a b, num_gt a b = true -> num_gt b a = false;
  num_gt_cotrans : forall a b c,
      num_gt a b = false -> num_gt b c = false -> num_gt a c = false;
  num_eq_spec : forall a b,
      num_eq a b = true <-> num_gt a b = false /\ num_gt b a = false
}.

Arguments NumberOrder R {N}.

(** [a / b] on two [int]s. *)
Definition truediv {R : Type} {N : Number R} (a b : Z) : outcome exn_kind R :=
  if (b =? 0)%Z then Raise ZeroDivisionError else Ok (num_truediv a b).

(** [max(l)]: the first element is kept until a later one is [>] it. *)
Definition py_max {R : Type} {N : Number R} (l : list R) : outcome exn_kind R :=
  match l with
  | [] => Raise ValueError
  | x :: l' => Ok (fold_left (fun m y => if num_gt y m then y else m) l' x)
  end.

(** [l.index(v)]: the first position whose element [== v]. *)
Fixpoint index {R : Type} {N : Number R} (l : list R) (v : R)
  : outcome exn_kind nat :=
  match l with
  | [] => Raise ValueError
  | x :: l' =>
      if num_eq x v then Ok O
      else match index l' v with
           | Ok i => Ok (S i)
           | Raise e => Raise e
           end
  end.

(** [[x + y for x, y in zip(a, b)]], the function [Layer.backward] reduces
    with. *)
Definition zip_add {R : Type} {N : Number R} (a b : list R) : list R :=
  map (fun xy => num_add (fst xy) (snd xy)) (combine a b).

(** ** The imported modules *)

(** The state of Python's random generator: how many values were drawn. *)
Definition rng : Type := nat.

(** The module [Math] is not among the sources; [NeuralNetwork.__init__]
    uses [Math.sigmoid] (as a default argument) and [Math.partial]. *)
Module Math.
Class ops (R : Type) : Type := {
  sigmoid : R -> R;
  partial : (R -> R) -> R -> R
}.
End Math.

(** The class [Perceptron] is not among the sources.  This is what [Layer]
    uses of it: the constructor, three methods and the property
    [weight_delta].  A method takes its arguments and the neuron and returns
    an outcome and the neuron after the call.  [update_weight] receives
    [Layer.__inputs__], which is [None] until the first [forward].
    [weights] reads the neuron's weight vector and is used only to state
    which calls leave it alone. *)
Class Perceptron (R P : Type) : Type := {
  Perceptron_init : Z -> (R -> R) -> option (list R) -> M rng exn_kind P;
  compute_output : list R -> M P exn_kind R;
  compute_delta : R -> M P exn_kind unit;
  weight_delta : P -> list R;
  update_weight : option (list R) -> M P exn_kind unit;
  weights : P -> list R
}.

(** ** class Layer *)

Module Layer.

Record t (R P : Type) : Type := Build {
  __dimension__ : Z;
  __neurons__ : list P;
  __inputs__ : option (list R)
}.

Arguments Build {R P} _ _ _.

Section Methods.
Context {R P : Type} {N : Number R} {Pc : Perceptron R P}.

Definition set_neurons (self : t R P) (ns : list P) : t R P :=
  Build (__dimension__ self) ns (__inputs__ self).

Definition set_inputs (self : t R P) (i : option (list R)) : t R P :=
  Build (__dimension__ self) (__neurons__ self) i.

(** [Layer(dimension, previous_layer_dimension, activation, weights)] *)
Definition __init__ (dimension previous_layer_dimension : Z)
  (activation : R -> R) (weights : option (list (option (list R))))
  : M rng exn (t R P) :=
  let weights :=
    match weights with
    | None => repeat None (Z.to_nat dimension)
    | Some w => w
    end in
  if negb (Z.of_nat (length weights) =? dimension)%Z
  then raise (Raised AssertionError in_Layer_init)
  else
    (neurons <-
       comprehension
         (fun i =>
            w <- eval (escaping in_Layer_init (getitem weights i)) ;;
            fun g =>
              let (r, g') :=
                Perceptron_init previous_layer_dimension activation w g in
              (escaping in_Perceptron r, g'))
         (range dimension) ;;
     ret (Build dimension neurons None))%py.

(** [Layer.backward(self, downstream)] *)
Definition backward (downstream : list R) : M (t R P) exn (list R) :=
  fun self =>
    if negb (length (__neurons__ self) =? length downstream)%nat
    then (Raise (Raised AssertionError in_Layer_backward), self)
    else
      let (r, ns) := for_zip compute_delta (__neurons__ self) downstream in
      let self := set_neurons self ns in
      match r with
      | Raise k => (Raise (Raised k in_Perceptron), self)
      | Ok _ =>
          (escaping in_Layer_backward
             (reduce zip_add (map weight_delta (__neurons__ self))),
           self)
      end.

(** [Layer.forward(self, inputs)] *)
Definition forward (inputs : list R) : M (t R P) exn (list R) :=
  fun self =>
    let self := set_inputs self (Some inputs) in
    let (r, ns) := for_each (compute_output inputs) (__neurons__ self) in
    (escaping in_Perceptron r, set_neurons self ns).

(** [Layer.update_weights(self)] *)
Definition update_weights : M (t R P) exn unit :=
  fun self =>
    let (r, ns) :=
      for_each (update_weight (__inputs__ self)) (__neurons__ self) in
    (escaping in_Perceptron
       (match r with Ok _ => Ok tt | Raise k => Raise k end),
     set_neurons self ns).

End Methods.

End Layer.

(** ** class NeuralNetwork *)

Module NeuralNetwork.

Record t (R P : Type) : Type := Build {
  __iteration__ : Z;
  __layer_num__ : Z;
  __label_count__ : Z;
  __layers__ : list (Layer.t R P);
  __activation__ : R -> R;
  __activation_partial__ : R -> R
}.

Arguments Build {R P} _ _ _ _ _ _.

Section Methods.
Context {R P : Type} {N : Number R} {Mt : Math.ops R}
  {Pc : Perceptron R P}.

Definition set_layers (self : t R P) (ls : list (Layer.t R P)) : t R P :=
  Build (__iteration__ self) (__layer_num__ self) (__label_count__ self)
    ls (__activation__ self) (__activation_partial__ self).

(** A loop over [self.__layers__] (or a reversed copy of it, which
    holds the same layer objects): [body] sees the list in the order
    [view] gives and the layers it mutates are those of [self]. *)
Definition on_layers {A : Type}
  (body : list (Layer.t R P) -> outcome exn A * list (Layer.t R P))
  : M (t R P) exn A :=
  fun self =>
    let (r, ls) := body (__layers__ self) in (r, set_layers self ls).

(** [NeuralNetwork(iteration, input_count, label_count, hidden_layers,
    neurons, learning_rate, activation, weights)].  The caller passes
    its list object [neurons]; the second component of the result is
    that object after the call, the third the random generator. *)
Definition __init__ (iteration input_count label_count hidden_layers : Z)
  (neurons : list Z) (learning_rate : R) (activation : R -> R)
  (weights : option (list (option (list (option (list R))))))
  (g : rng) : outcome exn (t R P) * list Z * rng :=
  let layer_num := (hidden_layers + 1)%Z in
  let neurons := neurons ++ [label_count] in
  if negb (Z.of_nat (length neurons) =? layer_num)%Z
  then (Raise (Raised AssertionError in_NeuralNetwork_init), neurons, g)
  else
    let weights :=
      match weights with
      | None => repeat None (Z.to_nat layer_num)
      | Some w => w
      end in
    let (r, g') :=
      comprehension
        (fun icp : Z * (Z * Z) =>
           let (i, cp) := icp in
           let (c, p) := cp in
           (w <- eval (escaping in_NeuralNetwork_init (getitem weights i)) ;;
            Layer.__init__ c p activation w)%py)
        (enumerate (combine neurons (input_count :: neurons))) g in
    match r with
    | Raise e => (Raise e, neurons, g')
    | Ok layers =>
        (Ok (Build iteration layer_num label_count layers activation
               (Math.partial activation)),
         neurons, g')
    end.

(** The loop of lines 139-140 and 161-162:
    [for layer in self.__layers__: inputs = layer.forward(inputs)]. *)
Definition forward_layers (inputs : list R) : M (t R P) exn (list R) :=
  on_layers (fun ls => for_acc Layer.forward ls inputs).

(** The loop of lines 149-150:
    [for layer in self.__layers__[::-1]: inputs = layer.backward(inputs)].
    The slice is a new list of the same layer objects. *)
Definition backward_layers (inputs : list R) : M (t R P) exn (list R) :=
  on_layers
    (fun ls =>
       let (r, sl) := for_acc Layer.backward (rev ls) inputs in
       (r, rev sl)).

(** The loop of lines 153-154:
    [for layer in self.__layers__: layer.update_weights()]. *)
Definition update_layers : M (t R P) exn unit :=
  on_layers
    (fun ls =>
       let (r, ls') := for_each Layer.update_weights ls in
       (match r with Ok _ => Ok tt | Raise e => Raise e end, ls')).

(** [[0 for _ in range(n)]] *)
Definition zeros (n : Z) : list R := map (fun _ => num_0) (range n).

(** [[target - output for target, output in zip(labels, inputs)]] *)
Definition zip_sub (labels inputs : list R) : list R :=
  map (fun to => num_sub (fst to) (snd to)) (combine labels inputs).

(** [NeuralNetwork.train_instance(self, instance)] *)
Definition train_instance (instance : list R) : M (t R P) exn unit :=
  (x <- eval (escaping in_train_instance (getitem_last instance)) ;;
   label <- eval (escaping in_train_instance (num_int x)) ;;
   self <- (fun s => (Ok s, s)) ;;
   let labels := zeros (__label_count__ self) in
   labels <- eval (escaping in_train_instance (setitem labels label num_1)) ;;
   let inputs := removelast instance in
   inputs <- forward_layers inputs ;;
   let inputs := zip_sub labels inputs in
   inputs <- backward_layers inputs ;;
   update_layers)%py.

(** [NeuralNetwork.test_instance(self, instance)] *)
Definition test_instance (instance : list R) : M (t R P) exn bool :=
  (x <- eval (escaping in_test_instance (getitem_last instance)) ;;
   label <- eval (escaping in_test_instance (num_int x)) ;;
   let inputs := removelast instance in
   inputs <- forward_layers inputs ;;
   m <- eval (escaping in_test_instance (py_max inputs)) ;;
   i <- eval (escaping in_test_instance (index inputs m)) ;;
   ret (label =? Z.of_nat i)%Z)%py.

(** [NeuralNetwork.train(self, instances)] *)
Definition train (instances : list (list R)) : M (t R P) exn unit :=
  fun self =>
    for_in
      (fun (_ : Z) (_ : unit) =>
         for_in (fun instance (_ : unit) => train_instance instance)
           instances tt)
      (range (__iteration__ self)) tt self.

(** [NeuralNetwork.test(self, instances)] *)
Definition test (instances : list (list R)) : M (t R P) exn R :=
  (let positive := 0%Z in
   positive <-
     for_in
       (fun instance positive =>
          b <- test_instance instance ;;
          ret (if b : bool then (positive + 1)%Z else positive))
       instances positive ;;
   eval (escaping in_test
           (truediv positive (Z.of_nat (length instances)))))%py.

End Methods.

End NeuralNetwork.

(** ** The neuron unit of the spec *)

(** Modelled from the spec: the class [Perceptron] ([Perceptron.py] is not
    among the sources), after sections 3 and 4.1 of the spec.  A neuron owns
    a weight vector of [previous_dimension + 1] numbers, the bias weight
    last and fed the constant input 1, and holds its last output and its
    last delta.  It is created with the weights it is given, or else with
    small random values.  The spec gives the learning rate, the random
    values and the derivative of the activation no code: they are
    parameters here.  It does not say what the last output and the last
    delta are before the first call either: they start at 0. *)
Module PerceptronSpec.

Class params (R : Type) : Type := {
  learning_rate : R;
  small_random : nat -> R
}.

Record t (R : Type) : Type := Build {
  dimension : Z;
  activation : R -> R;
  activation_derivative : R -> R;
  weights : list R;
  output : R;
  delta : R
}.

Arguments Build {R} _ _ _ _ _ _.

Section Methods.
Context {R : Type} {N : Number R} {Mt : Math.ops R} {Pr : params R}.

(** "Created with either explicit initial weights or small random
    values." *)
Definition __init__ (dimension : Z) (activation : R -> R)
  (weights : option (list R)) : M rng exn_kind (t R) :=
  fun g =>
    match weights with
    | Some w =>
        (Ok (Build dimension activation (Math.partial activation) w
               num_0 num_0), g)
    | None =>
        let n := Z.to_nat (dimension + 1) in
        (Ok (Build dimension activation (Math.partial activation)
               (map small_random (seq g n)) num_0 num_0),
         (g + n)%nat)
    end.

(** "z = bias_weight + sum of weight_i * input_i" *)
Definition weighted_sum (weights inputs : list R) : R :=
  fold_left (fun z wx => num_add z (num_mul (fst wx) (snd wx)))
    (combine weights inputs) (last weights num_0).

(** "input length must equal previous_dimension ... applies activation
    function, stores and returns activation(z)"; a mismatch is "a
    contract violation (fail-fast)". *)
Definition compute_output (inputs : list R) : M (t R) exn_kind R :=
  fun self =>
    if negb (Z.of_nat (length inputs) =? dimension self)%Z
    then (Raise AssertionError, self)
    else
      let y := activation self (weighted_sum (weights self) inputs) in
      (Ok y,
       Build (dimension self) (activation self)
         (activation_derivative self) (weights self) y (delta self)).

(** "delta = downstream * activation_derivative(output) ... Stores
    delta." *)
Definition compute_delta (downstream : R) : M (t R) exn_kind unit :=
  fun self =>
    (Ok tt,
     Build (dimension self) (activation self)
       (activation_derivative self) (weights self) (output self)
       (num_mul downstream (activation_derivative self (output self)))).

(** "vector of length previous_dimension + 1, element i =
    weight_i * delta (bias weight included at the end)". *)
Definition weight_delta (self : t R) : list R :=
  map (fun w => num_mul w (delta self)) (weights self).

(** "For each weight i: weight_i += learning_rate * delta * input_i
    (bias weight uses implicit input 1)". *)
Definition update_weight (inputs : option (list R))
  : M (t R) exn_kind unit :=
  fun self =>
    match inputs with
    | None => (Raise TypeError, self)
    | Some inputs =>
        if negb (Z.of_nat (length inputs) =? dimension self)%Z
        then (Raise AssertionError, self)
        else
          (Ok tt,
           Build (dimension self) (activation self)
             (activation_derivative self)
             (map
                (fun wx =>
                   num_add (fst wx)
                     (num_mul (num_mul learning_rate (delta self))
                        (snd wx)))
                (combine (weights self) (inputs ++ [num_1])))
             (output self) (delta self))
    end.

End Methods.

End PerceptronSpec.

#[export] Instance PerceptronSpec_Perceptron {R : Type} {N : Number R}
  {Mt : Math.ops R} {Pr : PerceptronSpec.params R}
  : Perceptron R (PerceptronSpec.t R) := {
  Perceptron_init := PerceptronSpec.__init__;
  compute_output := PerceptronSpec.compute_output;
  compute_delta := PerceptronSpec.compute_delta;
  weight_delta := PerceptronSpec.weight_delta;
  update_weight := PerceptronSpec.update_weight;
  weights := @PerceptronSpec.weights R
}.

(** ** Exact rational numbers as Python numbers *)

(** Results are kept in lowest terms; [int(x)] truncates towards zero;
    [a / b] is the exact quotient. *)
#[export] Instance Q_Number : Number Q := {
  num_0 := 0%Q;
  num_1 := 1%Q;
  num_add := fun a b => Qred (a + b);
  num_sub := fun a b => Qred (a - b);
  num_mul := fun a b => Qred (a * b);
  num_gt := fun a b => negb (Qle_bool a b);
  num_eq := Qeq_bool;
  num_int := fun x => Ok (Z.quot (Qnum x) (Z.pos (Qden x)));
  num_truediv := fun a b => Qred (inject_Z a / inject_Z b)
}.

(** A rational squashing function onto (0, 1), and the derivative written
    in terms of the output, as for the logistic function. *)
Definition squash (x : Q) : Q :=
  Qred ((1 # 2) + x / ((2 # 1) * (1 + Qabs x))).

#[export] Instance Q_Math : Math.ops Q := {
  Math.sigmoid := squash;
  Math.partial := fun _ y => Qred (y * (1 - y))
}.

#[export] Instance Q_params : PerceptronSpec.params Q := {
  PerceptronSpec.learning_rate := (1 # 10)%Q;
  PerceptronSpec.small_random := fun k => (Z.of_nat (k mod 7) - 3 # 100)%Q
}.

Definition QLayer : Type := Layer.t Q (PerceptronSpec.t Q).
Definition QNetwork : Type := NeuralNetwork.t Q (PerceptronSpec.t Q).

(** The network of the test that the source keeps commented out
    ([test_train_instance]): three inputs, one hidden layer of two neurons,
    two labels, every weight given. *)
Definition example_weights : option (list (option (list (option (list Q))))) :=
  Some [Some [Some [-4 # 10; 2 # 10; 4 # 10; 1 # 10];
              Some [2 # 10; -5 # 10; -3 # 10; -2 # 10]];
        Some [Some [1 # 10; -3 # 10; -2 # 10];
              Some [1; 1; 1]]]%Q.

Definition example_layers : list QLayer :=
  [Layer.Build 2
     [PerceptronSpec.Build 3 squash (Math.partial squash)
        [-4 # 10; 2 # 10; 4 # 10; 1 # 10] 0 0;
      PerceptronSpec.Build 3 squash (Math.partial squash)
        [2 # 10; -5 # 10; -3 # 10; -2 # 10] 0 0] None;
   Layer.Build 2
     [PerceptronSpec.Build 2 squash (Math.partial squash)
        [1 # 10; -3 # 10; -2 # 10] 0 0;
      PerceptronSpec.Build 2 squash (Math.partial squash)
        [1; 1; 1] 0 0] None]%Q.

Definition example_network : QNetwork :=
  NeuralNetwork.Build 200 2 2 example_layers squash (Math.partial squash).

(** A network without hidden layer: three inputs, two labels. *)
Definition single_layer_network (iteration : Z) : QNetwork :=
  NeuralNetwork.Build iteration 1 2
    [Layer.Build 2
       [PerceptronSpec.Build 3 squash (Math.partial squash)
          [1 # 2; 0; -1 # 2; 0] 0 0;
        PerceptronSpec.Build 3 squash (Math.partial squash)
          [-1 # 2; 0; 1 # 2; 0] 0 0] None]%Q
    squash (Math.partial squash).

(** A layer of two neurons that have computed the outputs 1/2 and 1/3. *)
Definition computed_layer : QLayer :=
  Layer.Build 2
    [PerceptronSpec.Build 2 squash (Math.partial squash)
       [1 # 10; -3 # 10; -2 # 10] (1 # 2) 0;
     PerceptronSpec.Build 2 squash (Math.partial squash)
       [1; 1; 1] (1 # 3) 0]%Q
    (Some [1; 0]%Q).

(** The hidden layer of the example network before a layer whose neurons
    have computed outputs: a network in the middle of a training step. *)
Definition computed_network : QNetwork :=
  NeuralNetwork.Build 1 2 2
    [nth 0 example_layers (Layer.Build 0 [] None); computed_layer]
    squash (Math.partial squash).

(** ** What a call leaves alone *)

(** [m] does not change what [obs] reads of the object, whether it returns
    or raises. *)
Definition preserves {S E A X : Type} (obs : S -> X) (m : M S E A) : Prop :=
  forall s, obs (snd (m s)) = obs s.

Section Observations.
Context {R P : Type} {Pc : Perceptron R P}.

(** The weight vectors of a layer's neurons, in neuron order. *)
Definition layer_weights (l : Layer.t R P) : list (list R) :=
  map weights (Layer.__neurons__ l).

(** The weight vector of every neuron of every layer. *)
Definition all_weights (self : NeuralNetwork.t R P) : list (list (list R)) :=
  map layer_weights (NeuralNetwork.__layers__ self).

(** The attributes of the network and of its layers other than
    [Layer.__inputs__] and the neurons themselves. *)
Definition configuration (self : NeuralNetwork.t R P)
  : Z * Z * Z * list (Z * nat) :=
  (NeuralNetwork.__iteration__ self,
   NeuralNetwork.__layer_num__ self,
   NeuralNetwork.__label_count__ self,
   map (fun l => (Layer.__dimension__ l, length (Layer.__neurons__ l)))
     (NeuralNetwork.__layers__ self)).
(** The width of a layer with the weight vectors of its neurons, and the
    attributes of a network with these: what a forward pass has no
    statement to change. *)
Definition layer_core (l : Layer.t R P) : Z * list (list R) :=
  (Layer.__dimension__ l, layer_weights l).

Definition network_core (self : NeuralNetwork.t R P)
  : Z * Z * Z * list (Z * list (list R)) :=
  (NeuralNetwork.__iteration__ self,
   NeuralNetwork.__layer_num__ self,
   NeuralNetwork.__label_count__ self,
   map layer_core (NeuralNetwork.__layers__ self)).
End Observations.

(** ** The words of the specification *)

Section Specification.
Context {R P : Type} {N : Number R} {Pc : Perceptron R P}.

(** "The element-wise sum, across all neurons, of each neuron's
    weight_delta vector": element [i] is the sum, in neuron order, of the
    [i]-th elements, for every [i] that every vector has. *)
Definition elementwise_sum (vs : list (list R)) : list R :=
  match vs with
  | [] => []
  | v :: rest =>
      map
        (fun i =>
           fold_left num_add (map (fun u => nth i u num_0) rest)
             (nth i v num_0))
        (seq 0 (fold_left Nat.min (map (@length R) rest) (length v)))
  end.

(** The neurons after [compute_delta] ran on each with "its corresponding
    downstream value". *)
Definition after_compute_delta (ns : list P) (downstream : list R) : list P :=
  map (fun nd => snd (compute_delta (snd nd) (fst nd))) (combine ns downstream).

(** "Index of maximum output": position [i] holds an element that no
    element is above. *)
Definition is_maximum_at (l : list R) (i : nat) : Prop :=
  exists v, nth_error l i = Some v /\ forall u, In u l -> num_gt u v = false.

(** "A one-hot vector of length [n]" for the label [k]: 1 at position [k],
    0 elsewhere. *)
Definition is_one_hot (n k : Z) (v : list R) : Prop :=
  Z.of_nat (length v) = n /\
  forall i x, nth_error v i = Some x ->
              x = if (Z.of_nat i =? k)%Z then num_1 else num_0.

(** "[target_i - output_i] elementwise". *)
Definition is_difference (target output d : list R) : Prop :=
  length d = Nat.min (length target) (length output) /\
  forall i t o, nth_error target i = Some t -> nth_error output i = Some o ->
                nth_error d i = Some (num_sub t o).

End Specification.

(** ** Training runs *)

Section TrainingRuns.
Context {R P : Type} {N : Number R} {Pc : Perceptron R P}.

(** [runs_in_order self instances result]: the per-instance procedure was
    run on the instances one after the other, each call on the network as
    the call before left it; [result] is [(Ok tt, s)] with [s] the network
    after the last call when every call returned, and otherwise the
    exception of the first call that raised with the network as that call
    left it, no later instance having been touched. *)
Inductive runs_in_order
  : NeuralNetwork.t R P -> list (list R) ->
    outcome exn unit * NeuralNetwork.t R P -> Prop :=
| runs_done (self : NeuralNetwork.t R P) :
    runs_in_order self [] (Ok tt, self)
| runs_step (self self1 : NeuralNetwork.t R P) (instance : list R)
    (rest : list (list R))
    (result : outcome exn unit * NeuralNetwork.t R P) :
    NeuralNetwork.train_instance instance self = (Ok tt, self1) ->
    runs_in_order self1 rest result ->
    runs_in_order self (instance :: rest) result
| runs_raise (self self1 : NeuralNetwork.t R P) (instance : list R)
    (rest : list (list R)) (e : exn) :
    NeuralNetwork.train_instance instance self = (Raise e, self1) ->
    runs_in_order self (instance :: rest) (Raise e, self1).

End TrainingRuns.

(** A network of three layers of two neurons each, whose last layer's
    neurons carry two weights and whose middle layer's neurons carry
    three. *)
Definition three_layer_network : QNetwork :=
  NeuralNetwork.Build 1 3 2
    [nth 0 example_layers (Layer.Build 0 [] None);
     computed_layer;
     Layer.Build 2
       [PerceptronSpec.Build 1 squash (Math.partial squash)
          [1 # 2; 1 # 4] (1 # 2) 0;
        PerceptronSpec.Build 1 squash (Math.partial squash)
          [1; -1] (1 # 3) 0]%Q
       (Some [1 # 2]%Q)]
    squash (Math.partial squash).

(** * Properties *)

(** ** Rational numbers are ordered as the code expects *)

Lemma Q_gt_false (a b : Q) : negb (Qle_bool a b) = false <-> (a <= b)%Q.
Proof.
  rewrite negb_false_iff. apply Qle_bool_iff.
Qed.

#[export] Instance Q_NumberOrder : NumberOrder Q.
Proof.
  split; cbn [num_gt num_eq Q_Number].
  - intros a b H. apply Q_gt_false.
    apply negb_true_iff in H.
    destruct (Qlt_le_dec a b) as [Hlt | Hle].
    + apply Qlt_le_weak, Qle_bool_iff in Hlt. congruence.
    + exact Hle.
  - intros a b c Hab Hbc. apply Q_gt_false.
    apply Q_gt_false in Hab. apply Q_gt_false in Hbc.
    eapply Qle_trans; eassumption.
  - intros a b. rewrite !Q_gt_false. rewrite Qeq_bool_iff. split.
    + intros H. split; rewrite H; apply Qle_refl.
    + intros [H1 H2]. apply Qle_antisym; assumption.
Defined.

(** ** The monad and its loops *)

Lemma preserves_ret {S E A X : Type} (obs : S -> X) (a : A) :
  preserves obs (ret a : M S E A).
Proof. intros s. reflexivity. Qed.

Lemma preserves_eval {S E A X : Type} (obs : S -> X) (r : outcome E A) :
  preserves obs (eval r : M S E A).
Proof. intros s. reflexivity. Qed.

Lemma preserves_bind {S E A B X : Type} (obs : S -> X) (m : M S E A)
  (k : A -> M S E B) :
  preserves obs m -> (forall a, preserves obs (k a)) ->
  preserves obs (bind m k).
Proof.
  intros Hm Hk s. unfold bind.
  specialize (Hm s). destruct (m s) as [[a | e] s']; cbn [snd] in *.
  - rewrite Hk. exact Hm.
  - exact Hm.
Qed.

Lemma preserves_for_in {S E A Y X : Type} (obs : S -> X)
  (body : A -> Y -> M S E Y) (l : list A) :
  (forall a y, preserves obs (body a y)) ->
  forall y, preserves obs (for_in body l y).
Proof.
  intros Hbody. induction l as [| a l IH]; intros y; cbn [for_in].
  - apply preserves_ret.
  - apply preserves_bind; [apply Hbody | exact IH].
Qed.

Lemma for_in_app {S E A : Type} (body : A -> unit -> M S E unit)
  (l1 l2 : list A) (s : S) :
  for_in body (l1 ++ l2) tt s =
  bind (for_in body l1 tt) (fun _ => for_in body l2 tt) s.
Proof.
  revert s. induction l1 as [| a l1 IH]; intros s; cbn [for_in app].
  - reflexivity.
  - unfold bind in *.
    destruct (body a tt s) as [[[] | e] s1]; [ | reflexivity].
    apply IH.
Qed.

Lemma for_each_preserves {O E A X : Type} (obs : O -> X) (m : M O E A) :
  preserves obs m ->
  forall os, map obs (snd (for_each m os)) = map obs os.
Proof.
  intros Hm. induction os as [| o os IH]; cbn [for_each].
  - reflexivity.
  - specialize (Hm o). destruct (m o) as [[a | e] o']; cbn [snd] in Hm.
    + destruct (for_each m os) as [[l | e] os']; cbn [snd map] in *;
        rewrite Hm, IH; reflexivity.
    + cbn [snd map]. rewrite Hm. reflexivity.
Qed.

Lemma for_acc_preserves {O E A X : Type} (obs : O -> X) (m : A -> M O E A) :
  (forall x, preserves obs (m x)) ->
  forall os x, map obs (snd (for_acc m os x)) = map obs os.
Proof.
  intros Hm. induction os as [| o os IH]; intros x; cbn [for_acc].
  - reflexivity.
  - specialize (Hm x o). destruct (m x o) as [[x' | e] o']; cbn [snd] in Hm.
    + specialize (IH x'). destruct (for_acc m os x') as [r os'].
      cbn [snd map] in *. rewrite Hm, IH. reflexivity.
    + cbn [snd map]. rewrite Hm. reflexivity.
Qed.

(** ** Layer.backward *)

Section LayerProperties.
Context {R P : Type} {N : Number R} {Pc : Perceptron R P}.

(** C7.  [Layer.backward] raises the AssertionError of its own [assert]
    exactly when the downstream vector and the layer's neurons differ in
    number, and then no neuron was touched; when the two lengths are equal
    that assertion does not fire. *)
Theorem backward_assertion_iff (self : Layer.t R P) (downstream : list R) :
  (fst (Layer.backward downstream self)
   = Raise (Raised AssertionError in_Layer_backward)
   <-> length downstream <> length (Layer.__neurons__ self)) /\
  (fst (Layer.backward downstream self)
   = Raise (Raised AssertionError in_Layer_backward) ->
   snd (Layer.backward downstream self) = self).
Proof.
  unfold Layer.backward.
  destruct (Nat.eqb_spec (length (Layer.__neurons__ self)) (length downstream))
    as [Heq | Hne]; cbn [negb].
  - destruct (for_zip compute_delta (Layer.__neurons__ self) downstream)
      as [[u | k] ns].
    + unfold reduce.
      destruct (map weight_delta
                  (Layer.__neurons__ (Layer.set_neurons self ns)))
        as [| v vs]; cbn [escaping fst snd];
        (split; [split | ]; intros H; congruence).
    + cbn [fst snd]. split; [split | ]; intros H; congruence.
  - cbn [fst snd]. split; [split | ]; intros H; congruence.
Qed.

End LayerProperties.

(** ** NeuralNetwork.train *)

Section TrainProperties.
Context {R P : Type} {N : Number R} {Mt : Math.ops R} {Pc : Perceptron R P}.

Lemma passes_flatten {S A B : Type} (body : A -> unit -> M S exn unit)
  (instances : list A) (passes : list B) (s : S) :
  for_in (fun (_ : B) (_ : unit) => for_in body instances tt) passes tt s =
  for_in body (concat (repeat instances (length passes))) tt s.
Proof.
  revert s. induction passes as [| p passes IH]; intros s.
  - reflexivity.
  - cbn [for_in length repeat concat]. rewrite for_in_app.
    unfold bind. destruct (for_in body instances tt s) as [[[] | e] s1].
    + apply IH.
    + reflexivity.
Qed.

Lemma for_in_runs_in_order (instances : list (list R)) :
  forall self : NeuralNetwork.t R P,
    runs_in_order self instances
      (for_in
         (fun instance (_ : unit) => NeuralNetwork.train_instance instance)
         instances tt self).
Proof.
  induction instances as [| a instances IH]; intros self; cbn [for_in].
  - apply runs_done.
  - unfold bind.
    destruct (NeuralNetwork.train_instance a self) as [[[] | e] s1] eqn:Ha.
    + eapply runs_step; [exact Ha | apply IH].
    + eapply runs_raise. exact Ha.
Qed.

(** C8, as amended.  With [iteration = 0], [train] returns without a
    single call of [train_instance] and the network, hence every weight of
    every neuron of every layer, is what it was.  In general [train] runs
    [train_instance] on the instances in dataset order, the whole dataset
    [iteration] times over, each call on the network the call before left:
    when every call returns, that is every instance of every pass and
    [train] returns with the network after the last call; at the first call
    that raises [train] stops and raises the same exception. *)
Theorem train_runs_iterations (self : NeuralNetwork.t R P)
  (instances : list (list R)) :
  (NeuralNetwork.__iteration__ self = 0%Z ->
   NeuralNetwork.train instances self = (Ok tt, self) /\
   all_weights (snd (NeuralNetwork.train instances self))
   = all_weights self) /\
  runs_in_order self
    (concat
       (repeat instances (Z.to_nat (NeuralNetwork.__iteration__ self))))
    (NeuralNetwork.train instances self).
Proof.
  assert (Hflat :
    NeuralNetwork.train instances self =
    for_in (fun instance (_ : unit) => NeuralNetwork.train_instance instance)
      (concat
         (repeat instances (Z.to_nat (NeuralNetwork.__iteration__ self))))
      tt self).
  { unfold NeuralNetwork.train, range. rewrite passes_flatten.
    rewrite length_map, length_seq. reflexivity. }
  split.
  - intros H0. rewrite Hflat, H0. cbn. split; reflexivity.
  - rewrite Hflat. apply for_in_runs_in_order.
Qed.

End TrainProperties.

(** ** Testing leaves the weights alone *)

Section TestingProperties.
Context {R P : Type} {N : Number R} {Mt : Math.ops R} {Pc : Perceptron R P}.

Lemma all_weights_core (s s' : NeuralNetwork.t R P) :
  network_core s = network_core s' -> all_weights s = all_weights s'.
Proof.
  unfold network_core, all_weights. intros H.
  assert (Hl : map layer_core (NeuralNetwork.__layers__ s)
               = map layer_core (NeuralNetwork.__layers__ s'))
    by congruence.
  apply (f_equal (map snd)) in Hl. rewrite !map_map in Hl. exact Hl.
Qed.

Lemma configuration_core (s s' : NeuralNetwork.t R P) :
  network_core s = network_core s' -> configuration s = configuration s'.
Proof.
  unfold network_core, configuration. intros H.
  assert (Hl : map layer_core (NeuralNetwork.__layers__ s)
               = map layer_core (NeuralNetwork.__layers__ s'))
    by congruence.
  apply (f_equal (map (fun c : Z * list (list R) => (fst c, length (snd c)))))
    in Hl.
  rewrite !map_map in Hl. cbn [layer_core fst snd] in Hl.
  unfold layer_weights in Hl.
  assert (He : forall ls : list (Layer.t R P),
             map (fun x => (Layer.__dimension__ x,
                            length (map weights (Layer.__neurons__ x)))) ls
             = map (fun l => (Layer.__dimension__ l,
                              length (Layer.__neurons__ l))) ls).
  { intros ls. apply map_ext. intros l. rewrite length_map. reflexivity. }
  rewrite !He in Hl. congruence.
Qed.

Hypothesis compute_output_keeps_weights :
  forall (inputs : list R) (p : P),
    weights (snd (compute_output inputs p)) = weights p.

Lemma forward_layer_core (inputs : list R) :
  preserves layer_core (Layer.forward inputs).
Proof.
  intros l. unfold Layer.forward.
  pose proof (@for_each_preserves _ _ _ _ weights (compute_output inputs)
                (compute_output_keeps_weights inputs)
                (Layer.__neurons__ (Layer.set_inputs l (Some inputs)))) as H.
  destruct (for_each (compute_output inputs)
              (Layer.__neurons__ (Layer.set_inputs l (Some inputs))))
    as [r ns].
  cbn [snd] in *. unfold layer_core, layer_weights. cbn. rewrite H.
  reflexivity.
Qed.

Lemma forward_layers_core (inputs : list R) :
  preserves network_core (NeuralNetwork.forward_layers inputs).
Proof.
  intros s. unfold NeuralNetwork.forward_layers, NeuralNetwork.on_layers.
  pose proof (@for_acc_preserves _ _ _ _ layer_core Layer.forward
                forward_layer_core (NeuralNetwork.__layers__ s) inputs) as H.
  destruct (for_acc Layer.forward (NeuralNetwork.__layers__ s) inputs)
    as [r ls].
  cbn [snd] in *. unfold network_core. cbn. rewrite H. reflexivity.
Qed.

Lemma test_instance_core (instance : list R) :
  preserves network_core (NeuralNetwork.test_instance instance).
Proof.
  unfold NeuralNetwork.test_instance.
  repeat (apply preserves_bind; [ | intros ?]);
    try apply preserves_eval; try apply preserves_ret.
  apply forward_layers_core.
Qed.

Lemma test_core (instances : list (list R)) :
  preserves network_core (NeuralNetwork.test instances).
Proof.
  unfold NeuralNetwork.test.
  apply preserves_bind; [ | intros ?; apply preserves_eval].
  apply preserves_for_in. intros a y.
  apply preserves_bind; [apply test_instance_core | ].
  intros b. apply preserves_ret.
Qed.

End TestingProperties.

(** C10.  When [compute_output] does not write the weight vector of its
    neuron, [test_instance] and [test] leave every weight vector of the
    network as it was, on every network state and every instance or
    sequence of instances, whether the call returns or raises; the
    attributes of the network, the width of each layer and the number of
    its neurons stay as well: of a layer's own attributes only
    [__inputs__] is assigned. *)
Theorem testing_keeps_weights {R P : Type} {N : Number R} {Mt : Math.ops R}
  {Pc : Perceptron R P} :
  (forall (inputs : list R) (p : P),
      weights (snd (compute_output inputs p)) = weights p) ->
  forall (self : NeuralNetwork.t R P) (instance : list R)
         (instances : list (list R)),
    all_weights (snd (NeuralNetwork.test_instance instance self))
    = all_weights self /\
    all_weights (snd (NeuralNetwork.test instances self))
    = all_weights self /\
    configuration (snd (NeuralNetwork.test_instance instance self))
    = configuration self /\
    configuration (snd (NeuralNetwork.test instances self))
    = configuration self.
Proof.
  intros Hkeep self instance instances.
  pose proof (test_instance_core Hkeep instance self) as H1.
  pose proof (test_core Hkeep instances self) as H2.
  repeat split;
    first [apply all_weights_core | apply configuration_core]; assumption.
Qed.

(** ** Layer.backward returns the element-wise sum *)

Section BackwardSum.
Context {R P : Type} {N : Number R} {Pc : Perceptron R P}.

Lemma min_fold_le (l : list nat) (m : nat) : fold_left Nat.min l m <= m.
Proof.
  revert m. induction l as [| a l IH]; intros m; cbn [fold_left].
  - apply le_n.
  - etransitivity; [apply IH | apply Nat.le_min_l].
Qed.

Lemma length_zip_add (v u : list R) :
  length (zip_add v u) = Nat.min (length v) (length u).
Proof.
  unfold zip_add. rewrite length_map. apply length_combine.
Qed.

Lemma nth_zip_add (v u : list R) (i : nat) :
  i < Nat.min (length v) (length u) ->
  nth i (zip_add v u) num_0 = num_add (nth i v num_0) (nth i u num_0).
Proof.
  revert u i. induction v as [| a v IH]; intros [| b u] i Hi;
    cbn [length] in Hi; try (exfalso; lia).
  destruct i as [| i]; cbn.
  - reflexivity.
  - apply IH. cbn [length] in Hi. lia.
Qed.

Lemma map_nth_seq (v : list R) :
  map (fun i => nth i v num_0) (seq 0 (length v)) = v.
Proof.
  set (f := fun i => nth i v num_0).
  apply nth_ext with (d := num_0) (d' := num_0).
  - rewrite length_map, length_seq. reflexivity.
  - intros n Hn. rewrite length_map, length_seq in Hn.
    rewrite nth_indep with (d' := f 0%nat)
      by (rewrite length_map, length_seq; exact Hn).
    rewrite (map_nth f). rewrite seq_nth by exact Hn. reflexivity.
Qed.

Lemma fold_zip_add_sum (rest : list (list R)) (v : list R) :
  fold_left zip_add rest v = elementwise_sum (v :: rest).
Proof.
  revert v. induction rest as [| u rest IH]; intros v.
  - cbn. symmetry. apply map_nth_seq.
  - cbn [fold_left]. rewrite IH. unfold elementwise_sum.
    cbn [map fold_left]. rewrite length_zip_add.
    apply map_ext_in. intros i Hi. apply in_seq in Hi.
    pose proof (min_fold_le (map (@length R) rest)
                  (Nat.min (length v) (length u))) as Hle.
    rewrite nth_zip_add by lia. reflexivity.
Qed.

Lemma for_zip_compute_delta (ns : list P) (ds : list R) :
  Forall2 (fun n d => fst (compute_delta d n) = Ok tt) ns ds ->
  for_zip compute_delta ns ds = (Ok tt, after_compute_delta ns ds).
Proof.
  induction 1 as [| n d ns ds Hnd Hrest IH].
  - reflexivity.
  - cbn [for_zip]. unfold after_compute_delta in *.
    cbn [combine map fst snd].
    destruct (compute_delta d n) as [[[] | e] n']; cbn [fst snd] in *.
    + rewrite IH. reflexivity.
    + discriminate Hnd.
Qed.

(** C2, as amended.  On a layer of at least one neuron and a downstream
    vector with one value per neuron, when each [compute_delta] call
    returns, [Layer.backward] has called [compute_delta] on every neuron
    with its own downstream value, in neuron order, and returns the
    element-wise sum of the neurons' [weight_delta] vectors. *)
Theorem backward_elementwise_sum (self : Layer.t R P) (downstream : list R) :
  length downstream = length (Layer.__neurons__ self) ->
  Layer.__neurons__ self <> [] ->
  Forall2 (fun n d => fst (compute_delta d n) = Ok tt)
    (Layer.__neurons__ self) downstream ->
  Layer.backward downstream self =
  (Ok (elementwise_sum
         (map weight_delta
            (after_compute_delta (Layer.__neurons__ self) downstream))),
   Layer.set_neurons self
     (after_compute_delta (Layer.__neurons__ self) downstream)).
Proof.
  intros Hlen Hne Hall. unfold Layer.backward.
  rewrite <- Hlen, Nat.eqb_refl. cbn [negb].
  rewrite (for_zip_compute_delta Hall). cbn [Layer.set_neurons Layer.__neurons__].
  destruct (after_compute_delta (Layer.__neurons__ self) downstream)
    as [| n' ns'] eqn:Hafter.
  - exfalso. unfold after_compute_delta in Hafter.
    apply (f_equal (@length P)) in Hafter.
    rewrite length_map, length_combine, <- Hlen, Nat.min_id in Hafter.
    destruct downstream; [ | discriminate Hafter].
    destruct (Layer.__neurons__ self); [congruence | discriminate Hlen].
  - cbn [map reduce escaping]. rewrite fold_zip_add_sum. reflexivity.
Qed.

End BackwardSum.

(** ** max and index *)

Section Argmax.
Context {R : Type} {N : Number R} {NO : NumberOrder R}.

Lemma num_gt_irrefl (a : R) : num_gt a a = false.
Proof.
  destruct (num_gt a a) eqn:E; [ | reflexivity].
  pose proof (num_gt_asym _ _ E). congruence.
Qed.

Lemma num_eq_refl (a : R) : num_eq a a = true.
Proof.
  apply num_eq_spec. split; apply num_gt_irrefl.
Qed.

Lemma max_fold_spec (l : list R) (x : R) :
  In (fold_left (fun m y => if num_gt y m then y else m) l x) (x :: l) /\
  forall u, In u (x :: l) ->
            num_gt u (fold_left (fun m y => if num_gt y m then y else m) l x)
            = false.
Proof.
  revert x. induction l as [| y l IH]; intros x; cbn [fold_left].
  - split; [left; reflexivity | ].
    intros u [<- | []]. apply num_gt_irrefl.
  - destruct (IH (if num_gt y x then y else x)) as [Hin Hmax].
    set (m := fold_left (fun m y => if num_gt y m then y else m) l
                (if num_gt y x then y else x)) in *.
    split.
    + destruct Hin as [Hin | Hin].
      * destruct (num_gt y x); rewrite <- Hin; cbn; auto.
      * right. right. exact Hin.
    + assert (Hfirst : num_gt (if num_gt y x then y else x) m = false)
        by (apply Hmax; left; reflexivity).
      intros u [<- | [<- | Hu]].
      * destruct (num_gt y x) eqn:E; [ | exact Hfirst].
        apply num_gt_cotrans with (b := y); [ | exact Hfirst].
        apply num_gt_asym. exact E.
      * destruct (num_gt y x) eqn:E; [exact Hfirst | ].
        apply num_gt_cotrans with (b := x); assumption.
      * apply Hmax. right. exact Hu.
Qed.

Lemma py_max_spec (l : list R) :
  l <> [] ->
  exists m, py_max l = Ok m /\ In m l /\
            forall u, In u l -> num_gt u m = false.
Proof.
  destruct l as [| x l]; [congruence | intros _].
  eexists. split; [reflexivity | ]. apply max_fold_spec.
Qed.

Lemma index_first (l : list R) (v : R) :
  (exists x, In x l /\ num_eq x v = true) ->
  exists i x,
    index l v = Ok i /\ nth_error l i = Some x /\ num_eq x v = true /\
    forall j y, j < i -> nth_error l j = Some y -> num_eq y v = false.
Proof.
  induction l as [| a l IH]; intros (x & Hin & Hx).
  - destruct Hin.
  - cbn [index]. destruct (num_eq a v) eqn:Ea.
    + exists 0%nat, a. repeat split; try assumption. intros j y Hj. lia.
    + destruct IH as (i & x' & Hi & Hnth & Hx' & Hbefore).
      { destruct Hin as [<- | Hin]; [congruence | ].
        exists x. split; assumption. }
      exists (S i), x'. rewrite Hi. repeat split; try assumption.
      intros [| j] y Hj Hy; cbn [nth_error] in Hy.
      * congruence.
      * apply (Hbefore j); [lia | exact Hy].
Qed.

(** [l.index(max(l))] is the first position of a greatest element. *)
Lemma index_of_max (l : list R) :
  l <> [] ->
  exists m i,
    py_max l = Ok m /\ index l m = Ok i /\ is_maximum_at l i /\
    forall k, is_maximum_at l k -> i <= k.
Proof.
  intros Hne. destruct (py_max_spec Hne) as (m & Hm & Hin & Hmax).
  destruct (@index_first l m) as (i & x & Hi & Hnth & Hx & Hbefore).
  { exists m. split; [exact Hin | apply num_eq_refl]. }
  apply num_eq_spec in Hx. destruct Hx as [Hxm Hmx].
  exists m, i. repeat split; try assumption.
  - exists x. split; [exact Hnth | ].
    intros u Hu. apply num_gt_cotrans with (b := m); [apply Hmax | ]; assumption.
  - intros k (v & Hk & Hv).
    destruct (Nat.le_gt_cases i k) as [Hle | Hlt]; [exact Hle | exfalso].
    pose proof (Hbefore k v Hlt Hk) as Hneq.
    assert (Heq : num_eq v m = true).
    { apply num_eq_spec. split.
      - apply Hmax. eapply nth_error_In. exact Hk.
      - apply Hv. exact Hin. }
    congruence.
Qed.

End Argmax.

(** ** NeuralNetwork.test_instance *)

Lemma getitem_last_snoc {A : Type} (l : list A) (x : A) :
  getitem_last (l ++ [x]) = Ok x.
Proof.
  unfold getitem_last. destruct l as [| a l]; cbn [app].
  - reflexivity.
  - f_equal. apply last_last.
Qed.

Section TestInstance.
Context {R P : Type} {N : Number R} {Mt : Math.ops R} {Pc : Perceptron R P}
  {NO : NumberOrder R}.

Lemma test_instance_index (self self1 : NeuralNetwork.t R P)
  (features outputs : list R) (x m : R) (label : Z) (i : nat) :
  num_int x = Ok label ->
  NeuralNetwork.forward_layers features self = (Ok outputs, self1) ->
  py_max outputs = Ok m ->
  index outputs m = Ok i ->
  NeuralNetwork.test_instance (features ++ [x]) self
  = (Ok (label =? Z.of_nat i)%Z, self1).
Proof.
  intros Hint Hfwd Hmax Hidx. unfold NeuralNetwork.test_instance.
  rewrite getitem_last_snoc, removelast_last.
  unfold bind, eval, ret. cbn [escaping].
  rewrite Hint. cbn [escaping]. rewrite Hfwd, Hmax. cbn [escaping].
  rewrite Hidx. reflexivity.
Qed.

(** C5.  On an instance whose last element casts to the label [label] and
    whose features the layers accept, giving a non-empty output,
    [test_instance] does the forward pass and nothing else to the network,
    and returns whether [label] is the index [i] of a maximum of the output:
    true exactly when [label = i]. *)
Theorem test_instance_argmax (self self1 : NeuralNetwork.t R P)
  (features outputs : list R) (x : R) (label : Z) :
  num_int x = Ok label ->
  NeuralNetwork.forward_layers features self = (Ok outputs, self1) ->
  outputs <> [] ->
  exists i,
    is_maximum_at outputs i /\
    NeuralNetwork.test_instance (features ++ [x]) self
    = (Ok (label =? Z.of_nat i)%Z, self1) /\
    (fst (NeuralNetwork.test_instance (features ++ [x]) self) = Ok true
     <-> label = Z.of_nat i).
Proof.
  intros Hint Hfwd Hne.
  destruct (index_of_max Hne) as (m & i & Hmax & Hidx & Hat & _).
  exists i. split; [exact Hat | ].
  rewrite (@test_instance_index _ _ _ _ _ _ _ _ Hint Hfwd Hmax Hidx). cbn [fst].
  split; [reflexivity | ]. split.
  - intros H. apply Z.eqb_eq. congruence.
  - intros H. apply Z.eqb_eq in H. rewrite H. reflexivity.
Qed.

(** C9.  When the output holds a maximum at two positions [j] and [k],
    [test_instance] compares the label with the smallest position that
    holds a maximum. *)
Theorem test_instance_lowest_tie (self self1 : NeuralNetwork.t R P)
  (features outputs : list R) (x : R) (label : Z) (j k : nat) :
  num_int x = Ok label ->
  NeuralNetwork.forward_layers features self = (Ok outputs, self1) ->
  j <> k ->
  is_maximum_at outputs j ->
  is_maximum_at outputs k ->
  exists i,
    i <= j /\ i <= k /\
    is_maximum_at outputs i /\
    (forall n, is_maximum_at outputs n -> i <= n) /\
    NeuralNetwork.test_instance (features ++ [x]) self
    = (Ok (label =? Z.of_nat i)%Z, self1).
Proof.
  intros Hint Hfwd Hjk Hj Hk.
  assert (Hne : outputs <> []).
  { destruct Hj as (v & Hv & _). intros ->. destruct j; discriminate Hv. }
  destruct (index_of_max Hne) as (m & i & Hmax & Hidx & Hat & Hleast).
  exists i. repeat split; auto.
  apply (@test_instance_index _ _ _ _ _ _ _ _ Hint Hfwd Hmax Hidx).
Qed.

End TestInstance.

(** ** NeuralNetwork.test *)

Section Test.
Context {R P : Type} {N : Number R} {Mt : Math.ops R} {Pc : Perceptron R P}.

Lemma test_loop_counts (instances : list (list R)) :
  forall (self self1 : NeuralNetwork.t R P) (verdicts : list bool)
         (positive : Z),
    comprehension NeuralNetwork.test_instance instances self
    = (Ok verdicts, self1) ->
    for_in
      (fun instance positive =>
         bind (NeuralNetwork.test_instance instance)
           (fun b : bool => ret (if b then (positive + 1)%Z else positive)))
      instances positive self
    = (Ok (positive + Z.of_nat (count_occ bool_dec verdicts true))%Z, self1).
Proof.
  induction instances as [| a instances IH];
    intros self self1 verdicts positive Hrun.
  - cbn in Hrun. injection Hrun as <- <-. cbn. rewrite Z.add_0_r.
    reflexivity.
  - cbn [comprehension for_in] in *. unfold bind, ret in Hrun |- *.
    destruct (NeuralNetwork.test_instance a self) as [[b | e] s1];
      [ | discriminate Hrun].
    destruct (comprehension NeuralNetwork.test_instance instances s1)
      as [[bs | e] s2] eqn:Hrest; [ | discriminate Hrun].
    injection Hrun as <- <-.
    unfold bind, ret in IH. rewrite (IH s1 s2 bs _ Hrest).
    destruct b; cbn [count_occ]; [ | reflexivity].
    destruct (bool_dec true true) as [_ | Hf]; [ | congruence].
    do 2 f_equal. lia.
Qed.

(** C6.  When [test_instance] returns on each of the [N] instances in turn
    and returns true on [P] of them, [test] returns [P / N] for [N > 0];
    on no instance at all it raises ZeroDivisionError. *)
Theorem test_returns_fraction (self self1 : NeuralNetwork.t R P)
  (instances : list (list R)) (verdicts : list bool) :
  comprehension NeuralNetwork.test_instance instances self
  = (Ok verdicts, self1) ->
  (instances <> [] ->
   NeuralNetwork.test instances self
   = (Ok (num_truediv (Z.of_nat (count_occ bool_dec verdicts true))
            (Z.of_nat (length instances))),
      self1)) /\
  NeuralNetwork.test [] self
  = (Raise (Raised ZeroDivisionError in_test), self).
Proof.
  intros Hrun. split; [ | reflexivity].
  intros Hne. unfold NeuralNetwork.test.
  unfold bind at 1. rewrite (@test_loop_counts instances self self1 verdicts 0%Z Hrun).
  unfold eval, truediv. cbn [Z.add].
  destruct instances as [| a instances]; [congruence | ].
  cbn [length]. destruct (Z.eqb_spec (Z.of_nat (S (length instances))) 0);
    [lia | reflexivity].
Qed.

End Test.

(** ** NeuralNetwork.train_instance *)

Lemma length_set_nth {A : Type} (l : list A) (k : nat) (v : A) :
  length (set_nth l k v) = length l.
Proof.
  revert k. induction l as [| a l IH]; intros [| k]; cbn; auto.
Qed.

Lemma nth_error_set_nth {A : Type} (l : list A) (k i : nat) (v : A) :
  k < length l ->
  nth_error (set_nth l k v) i = if (i =? k)%nat then Some v else nth_error l i.
Proof.
  revert k i. induction l as [| a l IH]; intros k i Hk; cbn [length] in Hk.
  - lia.
  - destruct k as [| k], i as [| i]; cbn; try reflexivity.
    apply IH. lia.
Qed.

Section TrainInstance.
Context {R P : Type} {N : Number R} {Mt : Math.ops R} {Pc : Perceptron R P}.

Lemma length_zeros (n : Z) :
  length (NeuralNetwork.zeros n : list R) = Z.to_nat n.
Proof.
  unfold NeuralNetwork.zeros, range. rewrite !length_map, length_seq.
  reflexivity.
Qed.

Lemma nth_error_zeros (n : Z) (i : nat) (x : R) :
  nth_error (NeuralNetwork.zeros n) i = Some x -> x = num_0.
Proof.
  intros H. apply nth_error_In in H. unfold NeuralNetwork.zeros in H.
  apply in_map_iff in H. destruct H as (_ & H & _). congruence.
Qed.

Lemma setitem_zeros_one_hot (n label : Z) :
  (0 <= label < n)%Z ->
  setitem (NeuralNetwork.zeros n : list R) label num_1
  = Ok (set_nth (NeuralNetwork.zeros n) (Z.to_nat label) num_1) /\
  is_one_hot n label (set_nth (NeuralNetwork.zeros n) (Z.to_nat label) num_1).
Proof.
  intros Hl. split.
  - unfold setitem, py_index_of. rewrite length_zeros.
    destruct (Z.leb_spec 0 label); [ | lia].
    destruct (Z.ltb_spec label (Z.of_nat (Z.to_nat n))); [ | lia].
    reflexivity.
  - split.
    + rewrite length_set_nth, length_zeros. lia.
    + intros i x Hx.
      rewrite nth_error_set_nth in Hx by (rewrite length_zeros; lia).
      destruct (Nat.eqb_spec i (Z.to_nat label)) as [-> | Hne].
      * rewrite Z2Nat.id, Z.eqb_refl by lia. congruence.
      * destruct (Z.eqb_spec (Z.of_nat i) label) as [He | _]; [lia | ].
        apply nth_error_zeros in Hx. exact Hx.
Qed.

Lemma zip_sub_is_difference (target output : list R) :
  is_difference target output (NeuralNetwork.zip_sub target output).
Proof.
  split.
  - unfold NeuralNetwork.zip_sub. rewrite length_map. apply length_combine.
  - revert output. induction target as [| a target IH];
      intros [| b output] i t o Ht Ho;
      try (destruct i; discriminate Ht); try (destruct i; discriminate Ho).
    destruct i as [| i]; cbn in *.
    + congruence.
    + apply IH; assumption.
Qed.

(** The backward loop on a network whose last layer is [out]: [out] gets
    the vector the loop starts with, and what its [backward] returns is,
    as it is, the vector the loop goes on with through the layers before
    it, last to first. *)
Lemma backward_layers_snoc (self : NeuralNetwork.t R P) (seed : list R)
  (front : list (Layer.t R P)) (out : Layer.t R P) :
  NeuralNetwork.__layers__ self = front ++ [out] ->
  NeuralNetwork.backward_layers seed self =
  (let (r, out') := Layer.backward seed out in
   match r with
   | Raise e => (Raise e, NeuralNetwork.set_layers self (front ++ [out']))
   | Ok d =>
       let (r', front') := for_acc Layer.backward (rev front) d in
       (r', NeuralNetwork.set_layers self (rev front' ++ [out']))
   end).
Proof.
  intros Hl. unfold NeuralNetwork.backward_layers, NeuralNetwork.on_layers.
  rewrite Hl, rev_app_distr. cbn [rev app for_acc].
  destruct (Layer.backward seed out) as [[d | e] out'].
  - destruct (for_acc Layer.backward (rev front) d) as [r' front'].
    reflexivity.
  - cbn [rev]. rewrite rev_involutive. reflexivity.
Qed.

(** C4.  On an instance whose last element casts to a label in
    [[0, label_count)] and whose features the layers accept,
    [train_instance] turns the label into the one-hot vector [target] of
    length [label_count], takes [seed_i = target_i - output_i] on the
    output [output] of the last layer's [forward], and goes on with the
    backward loop on [seed] and then the update loop; the backward loop
    hands [seed] to the last (output) layer. *)
Theorem train_instance_seeds_output_layer (self self1 : NeuralNetwork.t R P)
  (features outputs : list R) (x : R) (label : Z) :
  num_int x = Ok label ->
  (0 <= label < NeuralNetwork.__label_count__ self)%Z ->
  NeuralNetwork.forward_layers features self = (Ok outputs, self1) ->
  exists target seed,
    is_one_hot (NeuralNetwork.__label_count__ self) label target /\
    is_difference target outputs seed /\
    NeuralNetwork.train_instance (features ++ [x]) self
    = bind (NeuralNetwork.backward_layers seed)
        (fun _ => NeuralNetwork.update_layers) self1 /\
    forall front out,
      NeuralNetwork.__layers__ self1 = front ++ [out] ->
      NeuralNetwork.backward_layers seed self1 =
      (let (r, out') := Layer.backward seed out in
       match r with
       | Raise e =>
           (Raise e, NeuralNetwork.set_layers self1 (front ++ [out']))
       | Ok d =>
           let (r', front') := for_acc Layer.backward (rev front) d in
           (r', NeuralNetwork.set_layers self1 (rev front' ++ [out']))
       end).
Proof.
  intros Hint Hlabel Hfwd.
  destruct (setitem_zeros_one_hot Hlabel) as [Hset Hhot].
  exists (set_nth (NeuralNetwork.zeros (NeuralNetwork.__label_count__ self))
            (Z.to_nat label) num_1).
  exists (NeuralNetwork.zip_sub
            (set_nth (NeuralNetwork.zeros (NeuralNetwork.__label_count__ self))
               (Z.to_nat label) num_1) outputs).
  split; [exact Hhot | ].
  split; [apply zip_sub_is_difference | ].
  split.
  - unfold NeuralNetwork.train_instance.
    rewrite getitem_last_snoc, removelast_last.
    unfold bind, eval. cbn [escaping]. rewrite Hint. cbn [escaping].
    rewrite Hset. cbn [escaping]. rewrite Hfwd. reflexivity.
  - intros front out Hl. apply backward_layers_snoc. exact Hl.
Qed.

End TrainInstance.

(** ** NeuralNetwork.__init__ *)

Lemma comprehension_raise {S E A B : Type} (Q : E -> Prop)
  (f : A -> M S E B) :
  (forall a s e s', f a s = (Raise e, s') -> Q e) ->
  forall l s e s', comprehension f l s = (Raise e, s') -> Q e.
Proof.
  intros Hf. induction l as [| a l IH]; intros s e s' H;
    cbn [comprehension] in H; unfold bind, ret in H.
  - discriminate H.
  - destruct (f a s) as [[b | e1] s1] eqn:Hfa.
    + destruct (comprehension f l s1) as [[bs | e2] s2] eqn:Hl.
      * discriminate H.
      * injection H as <- <-. eapply IH. exact Hl.
    + injection H as <- <-. eapply Hf. exact Hfa.
Qed.

Lemma getitem_raise {A : Type} (l : list A) (i : Z) (k : exn_kind) :
  getitem l i = Raise k -> k = IndexError.
Proof.
  unfold getitem. destruct (py_index_of l i) as [n | ];
    [destruct (nth_error l n) | ]; congruence.
Qed.

Section Construction.
Context {R P : Type} {N : Number R} {Mt : Math.ops R} {Pc : Perceptron R P}.

Lemma Layer_init_raise (dimension previous : Z) (activation : R -> R)
  (weights : option (list (option (list R)))) (g g' : rng) (e : exn) :
  Layer.__init__ (P := P) dimension previous activation weights g
  = (Raise e, g') ->
  origin e <> in_NeuralNetwork_init.
Proof.
  unfold Layer.__init__.
  match goal with
  | |- context [if ?c then _ else _] => destruct c
  end.
  - unfold raise. intros H. injection H as <- _. discriminate.
  - unfold bind at 1.
    match goal with
    | |- context [comprehension ?f ?l g] =>
        destruct (comprehension f l g) as [[ns | e1] g1] eqn:Hc
    end.
    + discriminate.
    + intros H. injection H as <- _.
      eapply (@comprehension_raise _ _ _ _
                (fun e0 => origin e0 <> in_NeuralNetwork_init));
        [ | exact Hc].
      intros i s e0 s'. unfold bind, eval.
      destruct (getitem _ i) as [w | k]; cbn [escaping].
      * destruct (Perceptron_init previous activation w s) as [[p | k] s1];
          cbn [escaping]; intros H; [discriminate H | ].
        injection H as <- _. discriminate.
      * intros H. injection H as <- _. discriminate.
Qed.

Lemma init_check (iteration input_count label_count hidden_layers : Z)
  (neurons : list Z) (learning_rate : R) (activation : R -> R)
  (weights : option (list (option (list (option (list R)))))) (g : rng) :
  let '(r, neurons1, g1) :=
    NeuralNetwork.__init__ (P := P) iteration input_count label_count
      hidden_layers neurons learning_rate activation weights g in
  neurons1 = neurons ++ [label_count] /\
  (r = Raise (Raised AssertionError in_NeuralNetwork_init)
   <-> Z.of_nat (length neurons1) <> (hidden_layers + 1)%Z) /\
  (r = Raise (Raised AssertionError in_NeuralNetwork_init) -> g1 = g).
Proof.
  unfold NeuralNetwork.__init__.
  destruct (Z.eqb_spec (Z.of_nat (length (neurons ++ [label_count])))
              (hidden_layers + 1)) as [Heq | Hne]; cbn [negb].
  - match goal with
    | |- context [comprehension ?f ?l g] =>
        destruct (comprehension f l g) as [[ls | e] g1] eqn:Hc
    end.
    + split; [reflexivity | ]. split; [split | ]; intros H; congruence.
    + assert (He : e <> Raised AssertionError in_NeuralNetwork_init).
      { eapply (@comprehension_raise _ _ _ _
                  (fun e0 => e0 <> Raised AssertionError in_NeuralNetwork_init));
          [ | exact Hc].
        intros [i [c p]] s e0 s'. unfold bind, eval.
        destruct (getitem _ i) as [w | k] eqn:Hw; cbn [escaping].
        - intros H. apply Layer_init_raise in H. intros ->. apply H.
          reflexivity.
        - apply getitem_raise in Hw. subst k. intros H.
          injection H as <- _. discriminate. }
      split; [reflexivity | ]. split; [split | ]; intros H; congruence.
  - split; [reflexivity | ]. split; [split | ]; intros H; congruence.
Qed.

(** C3, as amended.  The constructor appends [label_count] to the caller's
    list before it checks it; its own [assert] fails exactly when the
    length after the append is not [hidden_layers + 1], and then nothing
    else was done.  The caller's list keeps the appended width either way,
    so the same list object given to a second construction is checked one
    element longer: after a check that passed, the check of a second
    construction with the same [hidden_layers] fails; after a list that was
    one width short, it passes. *)
Theorem init_appends_then_checks
  (iteration input_count label_count hidden_layers : Z)
  (neurons : list Z) (learning_rate : R) (activation : R -> R)
  (weights : option (list (option (list (option (list R)))))) (g : rng) :
  let '(r, neurons1, g1) :=
    NeuralNetwork.__init__ (P := P) iteration input_count label_count
      hidden_layers neurons learning_rate activation weights g in
  neurons1 = neurons ++ [label_count] /\
  (r = Raise (Raised AssertionError in_NeuralNetwork_init)
   <-> Z.of_nat (length neurons1) <> (hidden_layers + 1)%Z) /\
  (r = Raise (Raised AssertionError in_NeuralNetwork_init) -> g1 = g) /\
  forall (iteration' input_count' label_count' : Z) (learning_rate' : R)
         (activation' : R -> R)
         (weights' : option (list (option (list (option (list R))))))
         (g' : rng),
    let '(r', neurons2, _) :=
      NeuralNetwork.__init__ (P := P) iteration' input_count' label_count'
        hidden_layers neurons1 learning_rate' activation' weights' g' in
    neurons2 = neurons ++ [label_count; label_count'] /\
    (Z.of_nat (length neurons1) = (hidden_layers + 1)%Z ->
     r' = Raise (Raised AssertionError in_NeuralNetwork_init)) /\
    (Z.of_nat (length neurons1) = hidden_layers ->
     r' <> Raise (Raised AssertionError in_NeuralNetwork_init)).
Proof.
  pose proof (init_check iteration input_count label_count hidden_layers
                neurons learning_rate activation weights g) as H1.
  destruct (NeuralNetwork.__init__ (P := P) iteration input_count label_count
              hidden_layers neurons learning_rate activation weights g)
    as [[r neurons1] g1].
  destruct H1 as (Hn1 & Hr1 & Hg1).
  split; [exact Hn1 | ]. split; [exact Hr1 | ]. split; [exact Hg1 | ].
  intros iteration' input_count' label_count' learning_rate' activation'
    weights' g'.
  pose proof (init_check iteration' input_count' label_count' hidden_layers
                neurons1 learning_rate' activation' weights' g') as H2.
  destruct (NeuralNetwork.__init__ (P := P) iteration' input_count'
              label_count' hidden_layers neurons1 learning_rate' activation'
              weights' g')
    as [[r' neurons2] g2].
  destruct H2 as (Hn2 & Hr2 & _).
  assert (Hlen : Z.of_nat (length neurons2)
                 = (Z.of_nat (length neurons1) + 1)%Z).
  { rewrite Hn2, length_app. cbn [length]. lia. }
  split.
  - rewrite Hn2, Hn1, <- app_assoc. reflexivity.
  - split.
    + intros Hpass. apply Hr2. lia.
    + intros Hshort Hr. apply Hr2 in Hr. lia.
Qed.

End Construction.

(** * Concrete networks *)

(** C1.  The network of the source's own (commented-out) test is what the
    constructor builds from that test's arguments, and [train_instance] on
    the test's instance [[1, 0, 1, 1]] raises the AssertionError of
    [Layer.backward]: the output layer returns a sum of three elements
    (two weights and the bias weight), the loop passes it on as it is, and
    the hidden layer has two neurons.  Without a hidden layer the same
    instance trains. *)
Theorem train_instance_hidden_layer_raises :
  NeuralNetwork.__init__ (P := PerceptronSpec.t Q) 200 3 2 1 [2%Z]
    (1 # 10)%Q squash example_weights 0%nat
  = (Ok example_network, [2%Z; 2%Z], 0%nat) /\
  fst (NeuralNetwork.train_instance [1; 0; 1; 1]%Q example_network)
  = Raise (Raised AssertionError in_Layer_backward) /\
  map (fun l : QLayer => length (Layer.__neurons__ l)) example_layers
  = [2; 2]%nat /\
  map (fun l : QLayer =>
         map (fun n => length (weight_delta n)) (Layer.__neurons__ l))
    example_layers
  = [[4; 4]; [3; 3]]%nat /\
  fst (NeuralNetwork.train_instance [1; 0; 1; 1]%Q (single_layer_network 1))
  = Ok tt.
Proof.
  repeat split; vm_compute; reflexivity.
Qed.

(** C2, the counterexample.  A layer of no neuron is what [Layer(0, 3, f)]
    builds; the empty downstream vector has the length of its neuron list,
    and [backward] raises the TypeError of [reduce] on an empty list
    instead of returning a sum. *)
Lemma backward_empty_layer_raises :
  Layer.__init__ (P := PerceptronSpec.t Q) 0 3 squash None 0%nat
  = (Ok (Layer.Build 0 [] None), 0%nat) /\
  length ([] : list Q)
  = length (Layer.__neurons__ (Layer.Build 0 [] None : QLayer)) /\
  Layer.backward [] (Layer.Build 0 [] None : QLayer)
  = (Raise (Raised TypeError in_Layer_backward), Layer.Build 0 [] None).
Proof.
  repeat split.
Qed.

Lemma backward_elementwise_sum_witness :
  length [1; -1]%Q = length (Layer.__neurons__ computed_layer) /\
  Layer.__neurons__ computed_layer <> [] /\
  fst (Layer.backward [1; -1]%Q computed_layer)
  = Ok [-71 # 360; -107 # 360; -49 # 180]%Q.
Proof.
  split; [reflexivity | ]. split; [discriminate | ].
  rewrite (backward_elementwise_sum computed_layer (downstream := [1; -1]%Q)).
  - vm_compute. reflexivity.
  - reflexivity.
  - discriminate.
  - repeat constructor.
Defined.

(** C3, the counterexample.  The hidden widths [[2]] for one hidden layer
    pass the check of a first construction, which leaves the list at
    [[2, 2]]; a second construction with the same list object and the same
    arguments fails the check. *)
Lemma init_reused_list_fails_check :
  let '(r1, neurons1, g1) :=
    NeuralNetwork.__init__ (P := PerceptronSpec.t Q) 200 3 2 1 [2%Z]
      (1 # 10)%Q squash None 0%nat in
  let '(r2, neurons2, _) :=
    NeuralNetwork.__init__ (P := PerceptronSpec.t Q) 200 3 2 1 neurons1
      (1 # 10)%Q squash None g1 in
  (exists net, r1 = Ok net) /\
  neurons1 = [2%Z; 2%Z] /\
  r2 = Raise (Raised AssertionError in_NeuralNetwork_init) /\
  neurons2 = [2%Z; 2%Z; 2%Z].
Proof.
  cbv zeta. vm_compute. repeat split. eexists. reflexivity.
Qed.

Lemma train_instance_seeds_output_layer_witness :
  num_int (1 : Q) = Ok 1%Z /\
  (0 <= 1 < NeuralNetwork.__label_count__ (single_layer_network 1))%Z /\
  fst (NeuralNetwork.forward_layers [0; 0; 1]%Q (single_layer_network 1))
  = Ok [1 # 3; 2 # 3]%Q /\
  exists target seed : list Q,
    is_one_hot 2 1 target /\
    is_difference target [1 # 3; 2 # 3]%Q seed /\
    NeuralNetwork.train_instance ([0; 0; 1] ++ [1])%Q (single_layer_network 1)
    = bind (NeuralNetwork.backward_layers seed)
        (fun _ => NeuralNetwork.update_layers)
        (snd (NeuralNetwork.forward_layers [0; 0; 1]%Q
                (single_layer_network 1))).
Proof.
  split; [reflexivity | ]. split; [cbn; lia | ]. split; [reflexivity | ].
  destruct (@train_instance_seeds_output_layer Q (PerceptronSpec.t Q) _ _
              (single_layer_network 1)
              (snd (NeuralNetwork.forward_layers [0; 0; 1]%Q
                      (single_layer_network 1)))
              [0; 0; 1]%Q [1 # 3; 2 # 3]%Q 1%Q 1%Z)
    as (target & seed & Hhot & Hdiff & Htrain & _).
  - reflexivity.
  - cbn; lia.
  - reflexivity.
  - exists target, seed.
    split; [exact Hhot | ]. split; [exact Hdiff | exact Htrain].
Defined.

Lemma test_instance_argmax_witness :
  num_int (1 : Q) = Ok 1%Z /\
  fst (NeuralNetwork.forward_layers [1; 0; 1]%Q example_network)
  = Ok [715 # 1803; 695 # 838]%Q /\
  exists i : nat,
    is_maximum_at [715 # 1803; 695 # 838]%Q i /\
    fst (NeuralNetwork.test_instance ([1; 0; 1] ++ [1])%Q example_network)
    = Ok (1 =? Z.of_nat i)%Z.
Proof.
  split; [reflexivity | ]. split; [vm_compute; reflexivity | ].
  destruct (@test_instance_argmax Q (PerceptronSpec.t Q) _ _ Q_NumberOrder
              example_network
              (snd (NeuralNetwork.forward_layers [1; 0; 1]%Q example_network))
              [1; 0; 1]%Q [715 # 1803; 695 # 838]%Q 1%Q 1%Z)
    as (i & Hat & Hres & _).
  - reflexivity.
  - vm_compute. reflexivity.
  - discriminate.
  - exists i. split; [exact Hat | ]. rewrite Hres. reflexivity.
Defined.

Lemma test_instance_lowest_tie_witness :
  fst (NeuralNetwork.forward_layers [1; 0; 1]%Q (single_layer_network 1))
  = Ok [1 # 2; 1 # 2]%Q /\
  is_maximum_at [1 # 2; 1 # 2]%Q 0 /\
  is_maximum_at [1 # 2; 1 # 2]%Q 1 /\
  exists i : nat,
    i <= 0 /\
    fst (NeuralNetwork.test_instance ([1; 0; 1] ++ [1])%Q
           (single_layer_network 1))
    = Ok (1 =? Z.of_nat i)%Z.
Proof.
  assert (H0 : is_maximum_at [1 # 2; 1 # 2]%Q 0).
  { exists (1 # 2)%Q. split; [reflexivity | ].
    intros u [<- | [<- | []]]; reflexivity. }
  assert (H1 : is_maximum_at [1 # 2; 1 # 2]%Q 1).
  { exists (1 # 2)%Q. split; [reflexivity | ].
    intros u [<- | [<- | []]]; reflexivity. }
  split; [reflexivity | ]. split; [exact H0 | ]. split; [exact H1 | ].
  destruct (@test_instance_lowest_tie Q (PerceptronSpec.t Q) _ _
              Q_NumberOrder (single_layer_network 1)
              (snd (NeuralNetwork.forward_layers [1; 0; 1]%Q
                      (single_layer_network 1)))
              [1; 0; 1]%Q [1 # 2; 1 # 2]%Q 1%Q 1%Z 0 1)
    as (i & Hi0 & _ & _ & _ & Hres).
  - reflexivity.
  - reflexivity.
  - discriminate.
  - exact H0.
  - exact H1.
  - exists i. split; [exact Hi0 | ]. rewrite Hres. reflexivity.
Defined.

Lemma test_returns_fraction_witness :
  fst (comprehension NeuralNetwork.test_instance
         [[1; 0; 1; 1]; [0; 0; 1; 1]; [1; 0; 0; 1]]%Q
         (single_layer_network 1))
  = Ok [false; true; false] /\
  fst (NeuralNetwork.test [[1; 0; 1; 1]; [0; 0; 1; 1]; [1; 0; 0; 1]]%Q
         (single_layer_network 1))
  = Ok (1 # 3)%Q /\
  fst (NeuralNetwork.test [] (single_layer_network 1))
  = Raise (Raised ZeroDivisionError in_test).
Proof.
  split; [vm_compute; reflexivity | ].
  destruct (@test_returns_fraction Q (PerceptronSpec.t Q) _ _
              (single_layer_network 1)
              (snd (comprehension NeuralNetwork.test_instance
                      [[1; 0; 1; 1]; [0; 0; 1; 1]; [1; 0; 0; 1]]%Q
                      (single_layer_network 1)))
              [[1; 0; 1; 1]; [0; 0; 1; 1]; [1; 0; 0; 1]]%Q
              [false; true; false])
    as [Hfrac Hempty].
  - vm_compute. reflexivity.
  - split.
    + rewrite Hfrac by discriminate. reflexivity.
    + rewrite Hempty. reflexivity.
Defined.

Lemma train_runs_iterations_witness :
  NeuralNetwork.__iteration__ (single_layer_network 0) = 0%Z /\
  NeuralNetwork.train [[1; 0; 1; 1]; [0; 0; 1; 0]]%Q (single_layer_network 0)
  = (Ok tt, single_layer_network 0) /\
  runs_in_order (single_layer_network 2)
    [[0; 0; 1; 1]; [1; 0; 0; 0]; [0; 0; 1; 1]; [1; 0; 0; 0]]%Q
    (NeuralNetwork.train [[0; 0; 1; 1]; [1; 0; 0; 0]]%Q
       (single_layer_network 2)) /\
  NeuralNetwork.train [[0; 0; 1; 1]; [1; 0; 0; 0]]%Q (single_layer_network 2)
  = (Ok tt,
     snd (NeuralNetwork.train_instance [1; 0; 0; 0]%Q
            (snd (NeuralNetwork.train_instance [0; 0; 1; 1]%Q
                    (snd (NeuralNetwork.train_instance [1; 0; 0; 0]%Q
                            (snd (NeuralNetwork.train_instance [0; 0; 1; 1]%Q
                                    (single_layer_network 2)))))))))
  /\
  all_weights
    (snd (NeuralNetwork.train [[0; 0; 1; 1]; [1; 0; 0; 0]]%Q
            (single_layer_network 2)))
  <> all_weights (single_layer_network 2).
Proof.
  split; [reflexivity | ]. split.
  - destruct (train_runs_iterations (single_layer_network 0)
                [[1; 0; 1; 1]; [0; 0; 1; 0]]%Q) as [H0 _].
    apply H0. reflexivity.
  - split.
    + destruct (train_runs_iterations (single_layer_network 2)
                  [[0; 0; 1; 1]; [1; 0; 0; 0]]%Q) as [_ H].
      exact H.
    + split; [vm_compute; reflexivity | ].
      vm_compute. discriminate.
Defined.

(** C8, the counterexample.  On the two-layer example network, configured
    for 200 iterations, and a dataset of two instances, [train] raises in
    its first call of [train_instance]: the second instance is never
    trained on, no pass is completed, and the network is as that one call
    left it. *)
Lemma train_stops_on_example_network :
  NeuralNetwork.__iteration__ example_network = 200%Z /\
  NeuralNetwork.train [[1; 0; 1; 1]; [0; 1; 1; 0]]%Q example_network
  = (Raise (Raised AssertionError in_Layer_backward),
     snd (NeuralNetwork.train_instance [1; 0; 1; 1]%Q example_network)) /\
  ~ (exists final,
        NeuralNetwork.train [[1; 0; 1; 1]; [0; 1; 1; 0]]%Q example_network
        = (Ok tt, final)).
Proof.
  assert (H : NeuralNetwork.train [[1; 0; 1; 1]; [0; 1; 1; 0]]%Q
                example_network
              = (Raise (Raised AssertionError in_Layer_backward),
                 snd (NeuralNetwork.train_instance [1; 0; 1; 1]%Q
                        example_network))).
  { vm_compute. reflexivity. }
  split; [reflexivity | ]. split; [exact H | ].
  intros [final Hf]. rewrite H in Hf. discriminate Hf.
Qed.

Lemma testing_keeps_weights_witness :
  (forall (inputs : list Q) (p : PerceptronSpec.t Q),
      weights (snd (compute_output inputs p)) = weights p) /\
  all_weights
    (snd (NeuralNetwork.test_instance [1; 0; 1; 1]%Q example_network))
  = all_weights example_network /\
  all_weights
    (snd (NeuralNetwork.test [[1; 0; 1; 1]; [0; 0; 1; 0]]%Q example_network))
  = all_weights example_network.
Proof.
  assert (Hkeep : forall (inputs : list Q) (p : PerceptronSpec.t Q),
             weights (snd (compute_output inputs p)) = weights p).
  { intros inputs p. cbn. unfold PerceptronSpec.compute_output.
    destruct (negb (Z.of_nat (length inputs) =? PerceptronSpec.dimension p)%Z);
      reflexivity. }
  split; [exact Hkeep | ].
  destruct (testing_keeps_weights Hkeep example_network [1; 0; 1; 1]%Q
              [[1; 0; 1; 1]; [0; 0; 1; 0]]%Q) as (H1 & H2 & _).
  split; assumption.
Defined.

(** * Further properties of the code *)

(** ** The loops over objects *)

Lemma for_each_length {O E A : Type} (m : M O E A) (os : list O) :
  length (snd (for_each m os)) = length os.
Proof.
  induction os as [| o os IH]; cbn [for_each].
  - reflexivity.
  - destruct (m o) as [[a | e] o'].
    + destruct (for_each m os) as [[l | e] os']; cbn [snd length] in *;
        rewrite IH; reflexivity.
    + reflexivity.
Qed.

Lemma for_each_ok {O E A : Type} (m : M O E A) (os os' : list O)
  (bs : list A) :
  for_each m os = (Ok bs, os') ->
  Forall2 (fun o b => fst (m o) = Ok b) os bs /\
  os' = map (fun o => snd (m o)) os.
Proof.
  revert os' bs. induction os as [| o os IH]; intros os' bs H;
    cbn [for_each] in H.
  - injection H as <- <-. split; [constructor | reflexivity].
  - destruct (m o) as [[a | e] o1] eqn:Hm; [ | discriminate H].
    destruct (for_each m os) as [[l | e] os1]; [ | discriminate H].
    injection H as <- <-. destruct (IH os1 l eq_refl) as [Hall ->].
    split.
    + constructor; [rewrite Hm; reflexivity | exact Hall].
    + cbn [map]. rewrite Hm. reflexivity.
Qed.

Lemma for_each_all_ok {O E : Type} (m : M O E unit) (os : list O) :
  Forall (fun o => fst (m o) = Ok tt) os ->
  for_each m os = (Ok (map (fun _ => tt) os), map (fun o => snd (m o)) os).
Proof.
  induction 1 as [| o os Ho Hos IH]; cbn [for_each map].
  - reflexivity.
  - destruct (m o) as [[[] | e] o1]; cbn [fst snd] in *;
      [ | discriminate Ho].
    rewrite IH. reflexivity.
Qed.

Lemma for_zip_length {O B E : Type} (m : B -> M O E unit) (os : list O)
  (bs : list B) :
  length (snd (for_zip m os bs)) = length os.
Proof.
  revert bs. induction os as [| o os IH]; intros [| b bs]; cbn [for_zip];
    try reflexivity.
  destruct (m b o) as [[u | e] o'].
  - specialize (IH bs). destruct (for_zip m os bs) as [r os'].
    cbn [snd length] in *. rewrite IH. reflexivity.
  - reflexivity.
Qed.

(** The zip loop stops at the first call that raises: the objects before
    it went through their calls, the one that raised is as its call left
    it, the ones after it are untouched. *)
Lemma for_zip_stops {O B E : Type} (m : B -> M O E unit)
  (before after : list O) (o : O) (bs1 bs2 : list B) (b : B) (e : E) :
  Forall2 (fun o b => fst (m b o) = Ok tt) before bs1 ->
  fst (m b o) = Raise e ->
  for_zip m (before ++ o :: after) (bs1 ++ b :: bs2)
  = (Raise e,
     map (fun ob => snd (m (snd ob) (fst ob))) (combine before bs1)
     ++ snd (m b o) :: after).
Proof.
  intros Hbefore Hraise.
  induction Hbefore as [| o1 b1 before bs1 H1 Hrest IH]; cbn [app for_zip].
  - destruct (m b o) as [[u | e'] o']; cbn [fst snd] in *.
    + discriminate Hraise.
    + injection Hraise as ->. reflexivity.
  - cbn [combine map fst snd app].
    destruct (m b1 o1) as [[[] | e'] o1']; cbn [fst snd] in *;
      [ | discriminate H1].
    rewrite IH. reflexivity.
Qed.

Lemma for_acc_snoc {O E A : Type} (m : A -> M O E A) (front : list O)
  (o : O) (x : A) :
  for_acc m (front ++ [o]) x =
  (let (r, front') := for_acc m front x in
   match r with
   | Raise e => (Raise e, front' ++ [o])
   | Ok x1 => let (r1, o') := m x1 o in (r1, front' ++ [o'])
   end).
Proof.
  revert x. induction front as [| a front IH]; intros x;
    cbn [app for_acc].
  - destruct (m x o) as [[y | e] o']; reflexivity.
  - destruct (m x a) as [[x1 | e] a'].
    + rewrite IH. destruct (for_acc m front x1) as [[x2 | e] front'].
      * destruct (m x2 o) as [r1 o']. reflexivity.
      * reflexivity.
    + reflexivity.
Qed.

Lemma comprehension_ok {S E A B : Type} (f : A -> M S E B) (l : list A) :
  forall (s s' : S) (bs : list B),
    comprehension f l s = (Ok bs, s') ->
    Forall2 (fun a b => exists s1 s2, f a s1 = (Ok b, s2)) l bs.
Proof.
  induction l as [| a l IH]; intros s s' bs H; cbn [comprehension] in H;
    unfold bind, ret in H.
  - injection H as <- _. constructor.
  - destruct (f a s) as [[b | e] s1] eqn:Hf; [ | discriminate H].
    destruct (comprehension f l s1) as [[bs1 | e] s2] eqn:Hl;
      [ | discriminate H].
    injection H as <- _. constructor.
    + exists s, s1. exact Hf.
    + eapply IH. exact Hl.
Qed.

Lemma Forall2_seq_nth_error {A B : Type} (R : A -> B -> Prop) (f : nat -> A)
  (n : nat) :
  forall (a : nat) (bs : list B) (i : nat) (b : B),
    Forall2 R (map f (seq a n)) bs ->
    nth_error bs i = Some b ->
    i < n /\ R (f (a + i)) b.
Proof.
  induction n as [| n IH]; intros a bs i b H Hb; cbn [seq map] in H.
  - inversion H; subst. destruct i; discriminate Hb.
  - inversion H as [| x y xs ys Hxy Hrest]; subst.
    destruct i as [| i]; cbn [nth_error] in Hb.
    + injection Hb as <-. rewrite Nat.add_0_r. split; [lia | exact Hxy].
    + destruct (IH (S a) ys i b Hrest Hb) as [Hi HR].
      split; [lia | ]. replace (a + S i) with (S a + i) by lia. exact HR.
Qed.

Lemma getitem_of_nat {A : Type} (l : list A) (i : nat) (x : A) :
  getitem l (Z.of_nat i) = Ok x -> nth_error l i = Some x.
Proof.
  unfold getitem, py_index_of.
  destruct (Z.leb_spec 0 (Z.of_nat i)); [ | lia]. cbn [andb].
  destruct (Z.of_nat i <? Z.of_nat (length l))%Z.
  - rewrite Nat2Z.id. destruct (nth_error l i); congruence.
  - destruct ((- Z.of_nat (length l) <=? Z.of_nat i)%Z
              && (Z.of_nat i <? 0)%Z) eqn:Hneg.
    + apply andb_true_iff in Hneg. destruct Hneg as [_ Hneg].
      apply Z.ltb_lt in Hneg. lia.
    + discriminate.
Qed.

(** ** Layer.__init__, Layer.forward, Layer.update_weights *)

Section LayerExtras.
Context {R P : Type} {N : Number R} {Pc : Perceptron R P}.

(** X1.  [Layer.__init__] fails its own [assert] exactly when the weight
    list it is given has not [dimension] elements, or, without a weight
    list, when [dimension] is negative; the random generator is then
    unused. *)
Theorem Layer_init_assertion_iff (dimension previous : Z)
  (activation : R -> R) (g : rng) :
  (forall w : list (option (list R)),
      fst (Layer.__init__ (P := P) dimension previous activation (Some w) g)
      = Raise (Raised AssertionError in_Layer_init)
      <-> Z.of_nat (length w) <> dimension) /\
  (fst (Layer.__init__ (P := P) dimension previous activation None g)
   = Raise (Raised AssertionError in_Layer_init)
   <-> (dimension < 0)%Z) /\
  (forall weights,
      fst (Layer.__init__ (P := P) dimension previous activation weights g)
      = Raise (Raised AssertionError in_Layer_init) ->
      snd (Layer.__init__ (P := P) dimension previous activation weights g)
      = g).
Proof.
  assert (Hgen : forall weights,
    let given := match weights with
                 | None => repeat None (Z.to_nat dimension)
                 | Some w => w
                 end in
    (fst (Layer.__init__ (P := P) dimension previous activation weights g)
     = Raise (Raised AssertionError in_Layer_init)
     <-> Z.of_nat (length given) <> dimension) /\
    (fst (Layer.__init__ (P := P) dimension previous activation weights g)
     = Raise (Raised AssertionError in_Layer_init) ->
     snd (Layer.__init__ (P := P) dimension previous activation weights g)
     = g)).
  { intros weights given. unfold Layer.__init__. fold given.
    destruct (Z.eqb_spec (Z.of_nat (length given)) dimension)
      as [Heq | Hne]; cbn [negb].
    - unfold bind.
      match goal with
      | |- context [comprehension ?f ?l g] =>
          destruct (comprehension f l g) as [[ns | e] g1] eqn:Hc
      end; cbn [ret fst snd].
      + split; [split | ]; intros H; congruence.
      + assert (He : e <> Raised AssertionError in_Layer_init).
        { eapply (@comprehension_raise _ _ _ _
                    (fun e0 => e0 <> Raised AssertionError in_Layer_init));
            [ | exact Hc].
          intros i s e0 s'. unfold bind, eval.
          destruct (getitem given i) as [w | k] eqn:Hw; cbn [escaping].
          - destruct (Perceptron_init previous activation w s)
              as [[p | k] s1]; cbn [escaping]; intros H;
              [discriminate H | ].
            injection H as <- _. discriminate.
          - apply getitem_raise in Hw. subst k. intros H.
            injection H as <- _. discriminate. }
        split; [split | ]; intros H; congruence.
    - unfold raise. cbn [fst snd].
      split; [split | ]; intros H; congruence. }
  split; [ | split].
  - intros w. apply (Hgen (Some w)).
  - destruct (Hgen None) as [Hiff _]. cbn zeta in Hiff.
    rewrite Hiff, repeat_length. split; intros H; lia.
  - intros weights. apply (Hgen weights).
Qed.

Lemma Layer_init_ok (dimension previous : Z) (activation : R -> R)
  (weights : option (list (option (list R)))) (g g' : rng)
  (l : Layer.t R P) :
  Layer.__init__ dimension previous activation weights g = (Ok l, g') ->
  Layer.__dimension__ l = dimension /\
  Z.of_nat (length (Layer.__neurons__ l)) = dimension /\
  Layer.__inputs__ l = None /\
  forall (i : nat) (n : P),
    nth_error (Layer.__neurons__ l) i = Some n ->
    exists w g1 g2,
      nth_error
        (match weights with
         | None => repeat None (Z.to_nat dimension)
         | Some w => w
         end) i = Some w /\
      Perceptron_init previous activation w g1 = (Ok n, g2).
Proof.
  unfold Layer.__init__.
  set (given := match weights with
                | None => repeat None (Z.to_nat dimension)
                | Some w => w
                end).
  destruct (Z.eqb_spec (Z.of_nat (length given)) dimension) as [Heq | Hne];
    cbn [negb]; [ | discriminate].
  unfold bind at 1.
  match goal with
  | |- context [comprehension ?f ?l g] =>
      destruct (comprehension f l g) as [[ns | e] g1] eqn:Hc
  end; [ | discriminate].
  unfold ret. intros H. injection H as <- <-.
  cbn [Layer.__dimension__ Layer.__neurons__ Layer.__inputs__].
  apply comprehension_ok in Hc. unfold range in Hc.
  split; [reflexivity | ]. split; [ | split; [reflexivity | ]].
  - apply Forall2_length in Hc. rewrite length_map, length_seq in Hc. lia.
  - intros i n Hn.
    destruct (@Forall2_seq_nth_error _ _ _ _ _ _ _ _ _ Hc Hn)
      as [Hi (s1 & s2 & Hf)].
    cbn [Nat.add] in Hf. unfold bind, eval in Hf.
    destruct (getitem given (Z.of_nat i)) as [w | k] eqn:Hw;
      cbn [escaping] in Hf; [ | discriminate Hf].
    destruct (Perceptron_init previous activation w s1) as [[p | k] s3] eqn:Hp;
      cbn [escaping] in Hf; [ | discriminate Hf].
    injection Hf as <- <-.
    exists w, s1, s3. split; [apply getitem_of_nat; exact Hw | exact Hp].
Qed.

(** X2.  A layer that [Layer.__init__] returns has the width it was asked
    for, one neuron per unit of width, no stored inputs, and its [i]-th
    neuron was made by the [Perceptron] constructor from the previous
    layer's dimension, the activation and the [i]-th entry of the weight
    list ([None] when no list was given). *)
Theorem Layer_init_shape (dimension previous : Z) (activation : R -> R)
  (weights : option (list (option (list R)))) (g g' : rng)
  (l : Layer.t R P) :
  Layer.__init__ dimension previous activation weights g = (Ok l, g') ->
  Layer.__dimension__ l = dimension /\
  Z.of_nat (length (Layer.__neurons__ l)) = dimension /\
  Layer.__inputs__ l = None /\
  forall (i : nat) (n : P),
    nth_error (Layer.__neurons__ l) i = Some n ->
    exists w g1 g2,
      nth_error
        (match weights with
         | None => repeat None (Z.to_nat dimension)
         | Some w => w
         end) i = Some w /\
      Perceptron_init previous activation w g1 = (Ok n, g2).
Proof.
  intros H. destruct (Layer_init_ok _ _ _ _ _ H) as (Hd & Hn & Hi & Hw).
  repeat split; assumption.
Qed.

Lemma forward_output_length (l : Layer.t R P) (inputs outputs : list R) :
  fst (Layer.forward inputs l) = Ok outputs ->
  length outputs = length (Layer.__neurons__ l).
Proof.
  unfold Layer.forward. cbn [Layer.set_inputs Layer.__neurons__].
  destruct (for_each (compute_output inputs) (Layer.__neurons__ l))
    as [[bs | k] ns] eqn:Hrun; cbn [fst escaping]; intros H;
    [ | discriminate H].
  injection H as <-. destruct (@for_each_ok _ _ _ _ _ _ _ Hrun) as [Hall _].
  symmetry. eapply Forall2_length. exact Hall.
Qed.

(** X3.  [Layer.forward] stores the inputs it is given even when a neuron
    raises, keeps the width and the number of neurons, and when it
    returns, its result holds one output per neuron, in neuron order, each
    the value [compute_output] returned on these inputs. *)
Theorem forward_stores_inputs (l : Layer.t R P) (inputs : list R) :
  Layer.__inputs__ (snd (Layer.forward inputs l)) = Some inputs /\
  Layer.__dimension__ (snd (Layer.forward inputs l)) = Layer.__dimension__ l /\
  length (Layer.__neurons__ (snd (Layer.forward inputs l)))
  = length (Layer.__neurons__ l) /\
  forall outputs,
    fst (Layer.forward inputs l) = Ok outputs ->
    length outputs = length (Layer.__neurons__ l) /\
    Forall2 (fun n o => fst (compute_output inputs n) = Ok o)
      (Layer.__neurons__ l) outputs /\
    Layer.__neurons__ (snd (Layer.forward inputs l))
    = map (fun n => snd (compute_output inputs n)) (Layer.__neurons__ l).
Proof.
  unfold Layer.forward.
  cbn [Layer.set_inputs Layer.__neurons__ Layer.__dimension__
         Layer.__inputs__].
  pose proof (for_each_length (compute_output inputs) (Layer.__neurons__ l))
    as Hlen.
  destruct (for_each (compute_output inputs) (Layer.__neurons__ l))
    as [r ns] eqn:Hrun.
  cbn [fst snd Layer.set_neurons Layer.__neurons__ Layer.__dimension__
         Layer.__inputs__] in *.
  repeat (split; [first [reflexivity | exact Hlen] | ]).
  intros outputs Hr. destruct r as [bs | k]; cbn [escaping] in Hr;
    [ | discriminate Hr].
  injection Hr as ->. destruct (@for_each_ok _ _ _ _ _ _ _ Hrun) as [Hall Hns].
  split; [ | split; assumption].
  symmetry. eapply Forall2_length. exact Hall.
Qed.

(** X4.  [Layer.backward] and [Layer.update_weights] never assign
    [__inputs__] or [__dimension__] and never add or remove a neuron,
    whether they return or raise. *)
Theorem backward_update_frame (l : Layer.t R P) (downstream : list R) :
  (Layer.__inputs__ (snd (Layer.backward downstream l)) = Layer.__inputs__ l /\
   Layer.__dimension__ (snd (Layer.backward downstream l))
   = Layer.__dimension__ l /\
   length (Layer.__neurons__ (snd (Layer.backward downstream l)))
   = length (Layer.__neurons__ l)) /\
  (Layer.__inputs__ (snd (Layer.update_weights l)) = Layer.__inputs__ l /\
   Layer.__dimension__ (snd (Layer.update_weights l)) = Layer.__dimension__ l /\
   length (Layer.__neurons__ (snd (Layer.update_weights l)))
   = length (Layer.__neurons__ l)).
Proof.
  split.
  - unfold Layer.backward.
    destruct (negb (length (Layer.__neurons__ l) =? length downstream)%nat).
    + repeat split.
    + pose proof (for_zip_length compute_delta (Layer.__neurons__ l)
                    downstream) as Hlen.
      destruct (for_zip compute_delta (Layer.__neurons__ l) downstream)
        as [[u | k] ns]; cbn [snd] in *; repeat split; exact Hlen.
  - unfold Layer.update_weights.
    pose proof (for_each_length (update_weight (Layer.__inputs__ l))
                  (Layer.__neurons__ l)) as Hlen.
    destruct (for_each (update_weight (Layer.__inputs__ l))
                (Layer.__neurons__ l)) as [r ns].
    cbn [snd] in *. repeat split; exact Hlen.
Qed.

(** When the downstream vector has one value per neuron and
    [compute_delta] raises on some neuron after returning on those before
    it, [Layer.backward] raises that exception: the neurons before have
    their deltas computed, the neurons after were not called, and no sum
    is formed. *)
Lemma backward_stops_at_first_raise (l : Layer.t R P)
  (before after : list P) (n : P) (ds1 ds2 : list R) (d : R)
  (k : exn_kind) :
  Layer.__neurons__ l = before ++ n :: after ->
  length ds2 = length after ->
  Forall2 (fun n d => fst (compute_delta d n) = Ok tt) before ds1 ->
  fst (compute_delta d n) = Raise k ->
  Layer.backward (ds1 ++ d :: ds2) l
  = (Raise (Raised k in_Perceptron),
     Layer.set_neurons l
       (after_compute_delta before ds1 ++ snd (compute_delta d n) :: after)).
Proof.
  intros Hns Hlen Hbefore Hraise. unfold Layer.backward. rewrite Hns.
  assert (Hl : length (before ++ n :: after) = length (ds1 ++ d :: ds2)).
  { rewrite !length_app. cbn [length].
    rewrite (Forall2_length Hbefore), Hlen. reflexivity. }
  rewrite Hl, Nat.eqb_refl. cbn [negb].
  rewrite (@for_zip_stops _ _ _ compute_delta before after n ds1 ds2 d k
             Hbefore Hraise).
  reflexivity.
Qed.

(** X5.  After [forward] on some inputs, [update_weights] calls
    [update_weight] on every neuron with exactly those inputs; when each
    call returns, every neuron is what its own call left and nothing else
    of the layer changes. *)
Theorem update_weights_uses_forward_inputs (l : Layer.t R P)
  (inputs : list R) :
  Forall (fun n => fst (update_weight (Some inputs) n) = Ok tt)
    (Layer.__neurons__ (snd (Layer.forward inputs l))) ->
  Layer.update_weights (snd (Layer.forward inputs l))
  = (Ok tt,
     Layer.set_neurons (snd (Layer.forward inputs l))
       (map (fun n => snd (update_weight (Some inputs) n))
          (Layer.__neurons__ (snd (Layer.forward inputs l))))).
Proof.
  intros Hall. unfold Layer.update_weights.
  assert (Hin : Layer.__inputs__ (snd (Layer.forward inputs l)) = Some inputs).
  { unfold Layer.forward.
    destruct (for_each (compute_output inputs)
                (Layer.__neurons__ (Layer.set_inputs l (Some inputs))));
      reflexivity. }
  rewrite Hin. rewrite (@for_each_all_ok _ _ _ _ Hall). reflexivity.
Qed.

End LayerExtras.

(** ** NeuralNetwork.__init__: the layers it builds *)

Lemma Forall2_nth_error_r {A B : Type} (R : A -> B -> Prop) (l : list A)
  (l' : list B) :
  Forall2 R l l' ->
  forall i b, nth_error l' i = Some b ->
              exists a, nth_error l i = Some a /\ R a b.
Proof.
  induction 1 as [| a b0 l l' Hab Hrest IH]; intros i b Hb.
  - destruct i; discriminate Hb.
  - destruct i as [| i]; cbn [nth_error] in *.
    + injection Hb as <-. exists a. split; [reflexivity | exact Hab].
    + apply IH. exact Hb.
Qed.

Lemma nth_error_combine_inv {A B : Type} (a : list A) (b : list B) (i : nat)
  (x : A) (y : B) :
  nth_error (combine a b) i = Some (x, y) ->
  nth_error a i = Some x /\ nth_error b i = Some y.
Proof.
  revert b i. induction a as [| a0 a IH]; intros [| b0 b] i H;
    cbn [combine] in H; try (destruct i; discriminate H).
  destruct i as [| i]; cbn [nth_error] in *.
  - injection H as <- <-. split; reflexivity.
  - apply IH. exact H.
Qed.

Section ConstructionExtras.
Context {R P : Type} {N : Number R} {Mt : Math.ops R} {Pc : Perceptron R P}.

(** X6.  A network that the constructor returns keeps the iteration count,
    the label count and the activation it was given, with
    [Math.partial activation] beside it; the hidden-width list had
    [hidden_layers] entries; there is one layer per entry of
    [neurons + [label_count]], the [i]-th of that width, with that many
    neurons and no stored inputs, and each of its neurons was constructed
    with the [i]-th entry of [[input_count] + neurons] as its dimension. *)
Theorem init_builds_chain
  (iteration input_count label_count hidden_layers : Z)
  (neurons neurons1 : list Z) (learning_rate : R) (activation : R -> R)
  (weights : option (list (option (list (option (list R))))))
  (g g1 : rng) (net : NeuralNetwork.t R P) :
  NeuralNetwork.__init__ iteration input_count label_count hidden_layers
    neurons learning_rate activation weights g
  = (Ok net, neurons1, g1) ->
  NeuralNetwork.__iteration__ net = iteration /\
  NeuralNetwork.__layer_num__ net = (hidden_layers + 1)%Z /\
  NeuralNetwork.__label_count__ net = label_count /\
  NeuralNetwork.__activation__ net = activation /\
  NeuralNetwork.__activation_partial__ net = Math.partial activation /\
  Z.of_nat (length neurons) = hidden_layers /\
  length (NeuralNetwork.__layers__ net) = S (length neurons) /\
  forall (i : nat) (l : Layer.t R P),
    nth_error (NeuralNetwork.__layers__ net) i = Some l ->
    exists c p : Z,
      nth_error (neurons ++ [label_count]) i = Some c /\
      nth_error (input_count :: neurons) i = Some p /\
      Layer.__dimension__ l = c /\
      Z.of_nat (length (Layer.__neurons__ l)) = c /\
      Layer.__inputs__ l = None /\
      forall n, In n (Layer.__neurons__ l) ->
                exists w s1 s2,
                  Perceptron_init p activation w s1 = (Ok n, s2).
Proof.
  unfold NeuralNetwork.__init__.
  destruct (Z.eqb_spec (Z.of_nat (length (neurons ++ [label_count])))
              (hidden_layers + 1)) as [Heq | Hne]; cbn [negb];
    [ | discriminate].
  match goal with
  | |- context [comprehension ?f ?l g] =>
      destruct (comprehension f l g) as [[ls | e] g2] eqn:Hc
  end; [ | discriminate].
  intros H. injection H as <- _ _.
  cbn [NeuralNetwork.__iteration__ NeuralNetwork.__layer_num__
         NeuralNetwork.__label_count__ NeuralNetwork.__activation__
         NeuralNetwork.__activation_partial__ NeuralNetwork.__layers__].
  rewrite length_app in Heq. cbn [length] in Heq.
  apply comprehension_ok in Hc.
  repeat (split; [first [reflexivity | lia] | ]).
  split.
  - apply Forall2_length in Hc. rewrite <- Hc. unfold enumerate.
    repeat rewrite ?length_combine, ?length_map, ?length_seq.
    cbn [length]. rewrite length_app. cbn [length]. lia.
  - intros i l Hl.
    destruct (Forall2_nth_error_r Hc _ Hl) as ([j [c p]] & Hnth & Hbuild).
    destruct Hbuild as (s1 & s2 & Hbuild).
    unfold enumerate in Hnth.
    apply nth_error_combine_inv in Hnth. destruct Hnth as [_ Hnth].
    apply nth_error_combine_inv in Hnth. destruct Hnth as [Hc' Hp'].
    unfold bind, eval in Hbuild.
    match type of Hbuild with
    | context [getitem ?ws j] => destruct (getitem ws j) as [w | k]
    end; cbn [escaping] in Hbuild; [ | discriminate Hbuild].
    destruct (Layer_init_ok _ _ _ _ _ Hbuild) as (Hd & Hn & Hi & Hw).
    exists c, p. split; [exact Hc' | ].
    split.
    + assert (Hi' : i < length (neurons ++ [label_count])).
      { apply nth_error_Some. congruence. }
      rewrite length_app in Hi'. cbn [length] in Hi'.
      change (input_count :: neurons ++ [label_count])
        with ((input_count :: neurons) ++ [label_count]) in Hp'.
      rewrite nth_error_app1 in Hp' by (cbn [length]; lia). exact Hp'.
    + repeat (split; [assumption | ]).
      intros n Hin. apply In_nth_error in Hin. destruct Hin as [m Hm].
      destruct (Hw m n Hm) as (w0 & t1 & t2 & _ & Hinit).
      exists w0, t1, t2. exact Hinit.
Qed.

End ConstructionExtras.

(** ** The forward and backward loops *)

Section LoopExtras.
Context {R P : Type} {N : Number R} {Mt : Math.ops R} {Pc : Perceptron R P}.

(** X7.  When the forward loop returns on a network whose last layer is
    [out], the vector it returns has one element per neuron of [out], and
    the network still has the same number of layers. *)
Theorem forward_layers_output_length (self self1 : NeuralNetwork.t R P)
  (front : list (Layer.t R P)) (out : Layer.t R P)
  (inputs outputs : list R) :
  NeuralNetwork.__layers__ self = front ++ [out] ->
  NeuralNetwork.forward_layers inputs self = (Ok outputs, self1) ->
  length outputs = length (Layer.__neurons__ out) /\
  length (NeuralNetwork.__layers__ self1)
  = length (NeuralNetwork.__layers__ self).
Proof.
  intros Hl. unfold NeuralNetwork.forward_layers, NeuralNetwork.on_layers.
  rewrite Hl, for_acc_snoc.
  destruct (for_acc Layer.forward front inputs) as [[x1 | e] front'] eqn:Hf;
    [ | discriminate].
  destruct (Layer.forward x1 out) as [r1 out'] eqn:Ho.
  intros H. injection H as -> <-. split.
  - apply (forward_output_length out x1). rewrite Ho. reflexivity.
  - cbn [NeuralNetwork.set_layers NeuralNetwork.__layers__].
    rewrite !length_app. cbn [length].
    pose proof (@for_acc_preserves _ _ _ _ (fun _ : Layer.t R P => tt)
                  Layer.forward (fun x s => eq_refl) front inputs) as Hp.
    rewrite Hf in Hp. cbn [snd] in Hp.
    apply (f_equal (@length unit)) in Hp. rewrite !length_map in Hp.
    rewrite Hp. reflexivity.
Qed.

Lemma for_acc_app {O E A : Type} (m : A -> M O E A) (l1 l2 : list O)
  (x : A) :
  for_acc m (l1 ++ l2) x =
  (let (r, l1') := for_acc m l1 x in
   match r with
   | Raise e => (Raise e, l1' ++ l2)
   | Ok x1 => let (r2, l2') := for_acc m l2 x1 in (r2, l1' ++ l2')
   end).
Proof.
  revert x. induction l1 as [| a l1 IH]; intros x; cbn [app for_acc].
  - destruct (for_acc m l2 x) as [r2 l2']. reflexivity.
  - destruct (m x a) as [[x1 | e] a'].
    + rewrite IH. destruct (for_acc m l1 x1) as [[x2 | e] l1'].
      * destruct (for_acc m l2 x2) as [r2 l2']. reflexivity.
      * reflexivity.
    + reflexivity.
Qed.

(** X8.  In the backward loop the vector a layer's [backward] returns goes
    to the layer before it unchanged, wherever the two layers are in the
    network: when the loop has come through the layers after [cur], the
    [backward] of [cur] returns [d], and the length of [d] is not the
    number of neurons of the layer [prev] before it, the loop raises the
    AssertionError of [Layer.backward] there; [prev] and all layers before
    it are untouched, [cur] and the layers after it keep what their
    [backward] did. *)
Theorem backward_layers_length_mismatch (self : NeuralNetwork.t R P)
  (front back back' : list (Layer.t R P)) (prev cur cur' : Layer.t R P)
  (seed x d : list R) :
  NeuralNetwork.__layers__ self = front ++ prev :: cur :: back ->
  for_acc Layer.backward (rev back) seed = (Ok x, back') ->
  Layer.backward x cur = (Ok d, cur') ->
  length d <> length (Layer.__neurons__ prev) ->
  NeuralNetwork.backward_layers seed self
  = (Raise (Raised AssertionError in_Layer_backward),
     NeuralNetwork.set_layers self (front ++ prev :: cur' :: rev back')).
Proof.
  intros Hl Hback Hcur Hlen.
  unfold NeuralNetwork.backward_layers, NeuralNetwork.on_layers.
  rewrite Hl.
  replace (rev (front ++ prev :: cur :: back))
    with (rev back ++ cur :: prev :: rev front)
    by (rewrite rev_app_distr; cbn [rev]; rewrite <- !app_assoc; reflexivity).
  rewrite for_acc_app, Hback. cbn [for_acc]. rewrite Hcur.
  unfold Layer.backward at 1.
  destruct (Nat.eqb_spec (length (Layer.__neurons__ prev)) (length d))
    as [Heq | Hne]; [congruence | ].
  cbn [negb]. f_equal. f_equal.
  rewrite rev_app_distr. cbn [rev]. rewrite rev_involutive, <- !app_assoc.
  reflexivity.
Qed.

End LoopExtras.

(** ** Labels, exceptions and empty datasets *)

Lemma for_in_app_acc {S E A X : Type} (body : A -> X -> M S E X)
  (l1 l2 : list A) (x : X) (s : S) :
  for_in body (l1 ++ l2) x s =
  bind (for_in body l1 x) (fun x1 => for_in body l2 x1) s.
Proof.
  revert x s. induction l1 as [| a l1 IH]; intros x s; cbn [for_in app].
  - reflexivity.
  - unfold bind in *. destruct (body a x s) as [[x1 | e] s1];
      [apply IH | reflexivity].
Qed.

Lemma concat_repeat_nil {A : Type} (n : nat) :
  concat (repeat ([] : list A) n) = [].
Proof.
  induction n as [| n IH]; cbn; auto.
Qed.

Section EdgeExtras.
Context {R P : Type} {N : Number R} {Mt : Math.ops R} {Pc : Perceptron R P}.

(** X9.  [train_instance] raises IndexError before the forward pass, and
    so leaves the network exactly as it was, on an empty instance and on
    an instance whose label is [label_count] or more, or below
    [-label_count]. *)
Theorem train_instance_rejects_label (self : NeuralNetwork.t R P)
  (features : list R) (x : R) (label : Z) :
  num_int x = Ok label ->
  (Z.max 0 (NeuralNetwork.__label_count__ self) <= label \/
   label < - Z.max 0 (NeuralNetwork.__label_count__ self))%Z ->
  NeuralNetwork.train_instance (features ++ [x]) self
  = (Raise (Raised IndexError in_train_instance), self) /\
  NeuralNetwork.train_instance [] self
  = (Raise (Raised IndexError in_train_instance), self).
Proof.
  intros Hint Hout. split; [ | reflexivity].
  unfold NeuralNetwork.train_instance. rewrite getitem_last_snoc.
  unfold bind, eval. cbn [escaping]. rewrite Hint. cbn [escaping].
  unfold setitem, py_index_of. rewrite length_zeros.
  destruct ((0 <=? label)%Z
            && (label <? Z.of_nat (Z.to_nat (NeuralNetwork.__label_count__ self)))%Z)
    eqn:H1.
  { apply andb_true_iff in H1. destruct H1 as [Ha Hb].
    apply Z.leb_le in Ha. apply Z.ltb_lt in Hb. lia. }
  destruct ((- Z.of_nat (Z.to_nat (NeuralNetwork.__label_count__ self)) <=? label)%Z
            && (label <? 0)%Z) eqn:H2.
  { apply andb_true_iff in H2. destruct H2 as [Ha Hb].
    apply Z.leb_le in Ha. apply Z.ltb_lt in Hb. lia. }
  reflexivity.
Qed.

(** X10.  A negative label from [-label_count] to [-1] is accepted and
    counts from the end: [train_instance] does with it exactly what it
    does with the label [label + label_count]. *)
Theorem train_instance_negative_label (self : NeuralNetwork.t R P)
  (features : list R) (x x' : R) (label : Z) :
  num_int x = Ok label ->
  num_int x' = Ok (label + NeuralNetwork.__label_count__ self)%Z ->
  (- NeuralNetwork.__label_count__ self <= label < 0)%Z ->
  NeuralNetwork.train_instance (features ++ [x]) self
  = NeuralNetwork.train_instance (features ++ [x']) self.
Proof.
  intros Hx Hx' Hneg.
  assert (Hset :
    setitem (NeuralNetwork.zeros (NeuralNetwork.__label_count__ self) : list R)
      label num_1
    = setitem (NeuralNetwork.zeros (NeuralNetwork.__label_count__ self))
        (label + NeuralNetwork.__label_count__ self)%Z num_1).
  { unfold setitem, py_index_of. rewrite length_zeros.
    set (lc := NeuralNetwork.__label_count__ self) in *.
    destruct (Z.leb_spec 0 label); [lia | ]. cbn [andb].
    destruct (Z.leb_spec (- Z.of_nat (Z.to_nat lc)) label); [ | lia].
    destruct (Z.ltb_spec label 0); [ | lia]. cbn [andb].
    destruct (Z.leb_spec 0 (label + lc)); [ | lia].
    destruct (Z.ltb_spec (label + lc) (Z.of_nat (Z.to_nat lc))); [ | lia].
    cbn [andb]. do 3 f_equal. lia. }
  unfold NeuralNetwork.train_instance.
  rewrite !getitem_last_snoc, !removelast_last.
  unfold bind, eval. cbn [escaping]. rewrite Hx, Hx'. cbn [escaping].
  rewrite Hset. reflexivity.
Qed.

(** X11.  [test_instance] answers false, after the forward pass, for every
    label that is negative or not below the number of outputs, and raises
    the ValueError of [max] when the forward pass returns no output at
    all. *)
Theorem test_instance_label_out_of_range {NO : NumberOrder R}
  (self self1 : NeuralNetwork.t R P) (features outputs : list R) (x : R)
  (label : Z) :
  num_int x = Ok label ->
  NeuralNetwork.forward_layers features self = (Ok outputs, self1) ->
  (outputs = [] ->
   NeuralNetwork.test_instance (features ++ [x]) self
   = (Raise (Raised ValueError in_test_instance), self1)) /\
  (outputs <> [] ->
   (label < 0 \/ Z.of_nat (length outputs) <= label)%Z ->
   NeuralNetwork.test_instance (features ++ [x]) self = (Ok false, self1)).
Proof.
  intros Hint Hfwd. split.
  - intros ->. unfold NeuralNetwork.test_instance.
    rewrite getitem_last_snoc, removelast_last.
    unfold bind, eval. cbn [escaping]. rewrite Hint. cbn [escaping].
    rewrite Hfwd. reflexivity.
  - intros Hne Hout.
    destruct (index_of_max Hne) as (m & i & Hmax & Hidx & Hat & _).
    rewrite (@test_instance_index _ _ _ _ _ _ _ _ _ _ _ _ Hint Hfwd Hmax Hidx).
    destruct Hat as (v & Hv & _).
    assert (Hi : i < length outputs) by (apply nth_error_Some; congruence).
    destruct (Z.eqb_spec label (Z.of_nat i)) as [Heq | _]; [lia | reflexivity].
Qed.

(** X12.  [test] stops at the first instance on which [test_instance]
    raises and raises the same exception: the later instances are not
    looked at and no fraction is computed. *)
Theorem test_propagates_exception (self s1 s2 : NeuralNetwork.t R P)
  (before after : list (list R)) (bad : list R) (verdicts : list bool)
  (e : exn) :
  comprehension NeuralNetwork.test_instance before self = (Ok verdicts, s1) ->
  NeuralNetwork.test_instance bad s1 = (Raise e, s2) ->
  NeuralNetwork.test (before ++ bad :: after) self = (Raise e, s2).
Proof.
  intros Hbefore Hbad. unfold NeuralNetwork.test.
  unfold bind at 1. rewrite for_in_app_acc. unfold bind at 1.
  rewrite (@test_loop_counts _ _ _ _ before self s1 verdicts 0%Z Hbefore).
  cbn [for_in]. unfold bind at 1 2. rewrite Hbad. reflexivity.
Qed.

(** X13.  [train] stops at the first instance on which [train_instance]
    raises, in the first pass already, and raises the same exception; the
    network is left as that call left it. *)
Theorem train_stops_at_first_raise (self s1 s2 : NeuralNetwork.t R P)
  (before after : list (list R)) (bad : list R) (e : exn) :
  (0 < NeuralNetwork.__iteration__ self)%Z ->
  for_in (fun instance (_ : unit) => NeuralNetwork.train_instance instance)
    before tt self = (Ok tt, s1) ->
  NeuralNetwork.train_instance bad s1 = (Raise e, s2) ->
  NeuralNetwork.train (before ++ bad :: after) self = (Raise e, s2).
Proof.
  intros Hit Hbefore Hbad. unfold NeuralNetwork.train, range.
  destruct (Z.to_nat (NeuralNetwork.__iteration__ self)) as [| n] eqn:Hn;
    [lia | ].
  cbn [seq map for_in]. unfold bind at 1. rewrite for_in_app_acc.
  unfold bind at 1. rewrite Hbefore. cbn [for_in]. unfold bind at 1.
  rewrite Hbad. reflexivity.
Qed.

(** X14.  [train] does nothing, and returns, when the dataset is empty
    (however many iterations) and when the iteration count is zero or
    negative (whatever the dataset). *)
Theorem train_nothing_to_do (self : NeuralNetwork.t R P)
  (instances : list (list R)) :
  NeuralNetwork.train [] self = (Ok tt, self) /\
  ((NeuralNetwork.__iteration__ self <= 0)%Z ->
   NeuralNetwork.train instances self = (Ok tt, self)).
Proof.
  split.
  - unfold NeuralNetwork.train. rewrite passes_flatten, concat_repeat_nil.
    reflexivity.
  - intros Hle. unfold NeuralNetwork.train, range.
    replace (Z.to_nat (NeuralNetwork.__iteration__ self)) with 0%nat by lia.
    reflexivity.
Qed.

End EdgeExtras.

(** ** The further properties at concrete networks *)

Lemma Layer_init_shape_witness :
  Layer.__init__ (P := PerceptronSpec.t Q) 2 2 squash
    (Some [Some [1 # 10; -3 # 10; -2 # 10]; Some [1; 1; 1]]%Q) 0%nat
  = (Ok (nth 1 example_layers (Layer.Build 0 [] None)), 0%nat) /\
  Layer.__dimension__ (nth 1 example_layers (Layer.Build 0 [] None)) = 2%Z /\
  Z.of_nat
    (length
       (Layer.__neurons__ (nth 1 example_layers (Layer.Build 0 [] None))))
  = 2%Z.
Proof.
  split; [reflexivity | ].
  destruct (@Layer_init_shape Q (PerceptronSpec.t Q) _ 2 2 squash
              (Some [Some [1 # 10; -3 # 10; -2 # 10]; Some [1; 1; 1]]%Q)
              0%nat 0%nat (nth 1 example_layers (Layer.Build 0 [] None)))
    as (Hd & Hn & _).
  - reflexivity.
  - split; assumption.
Defined.

Lemma update_weights_uses_forward_inputs_witness :
  Forall (fun n => fst (update_weight (Some [1; 0]%Q) n) = Ok tt)
    (Layer.__neurons__ (snd (Layer.forward [1; 0]%Q computed_layer))) /\
  fst (Layer.update_weights (snd (Layer.forward [1; 0]%Q computed_layer)))
  = Ok tt.
Proof.
  assert (H : Forall (fun n => fst (update_weight (Some [1; 0]%Q) n) = Ok tt)
                (Layer.__neurons__
                   (snd (Layer.forward [1; 0]%Q computed_layer)))).
  { repeat constructor. }
  split; [exact H | ].
  rewrite (@update_weights_uses_forward_inputs Q (PerceptronSpec.t Q) _
             computed_layer [1; 0]%Q H).
  reflexivity.
Defined.

Lemma init_builds_chain_witness :
  NeuralNetwork.__init__ (P := PerceptronSpec.t Q) 200 3 2 1 [2%Z]
    (1 # 10)%Q squash example_weights 0%nat
  = (Ok example_network, [2%Z; 2%Z], 0%nat) /\
  length (NeuralNetwork.__layers__ example_network) = 2%nat /\
  NeuralNetwork.__activation_partial__ example_network = Math.partial squash.
Proof.
  split; [reflexivity | ].
  destruct (@init_builds_chain Q (PerceptronSpec.t Q) _ _ 200 3 2 1
              [2%Z] [2%Z; 2%Z] (1 # 10)%Q squash example_weights 0%nat
              0%nat example_network)
    as (_ & _ & _ & _ & Hp & _ & Hl & _).
  - reflexivity.
  - split; assumption.
Defined.

Lemma forward_layers_output_length_witness :
  NeuralNetwork.__layers__ example_network
  = [nth 0 example_layers (Layer.Build 0 [] None)]
    ++ [nth 1 example_layers (Layer.Build 0 [] None)] /\
  fst (NeuralNetwork.forward_layers [1; 0; 1]%Q example_network)
  = Ok [715 # 1803; 695 # 838]%Q /\
  length [715 # 1803; 695 # 838]%Q = 2%nat.
Proof.
  split; [reflexivity | ]. split; [vm_compute; reflexivity | ].
  destruct (@forward_layers_output_length Q (PerceptronSpec.t Q) _
              example_network
              (snd (NeuralNetwork.forward_layers [1; 0; 1]%Q example_network))
              [nth 0 example_layers (Layer.Build 0 [] None)]
              (nth 1 example_layers (Layer.Build 0 [] None))
              [1; 0; 1]%Q [715 # 1803; 695 # 838]%Q)
    as [Hlen _].
  - reflexivity.
  - vm_compute. reflexivity.
  - exact Hlen.
Defined.

Lemma backward_layers_length_mismatch_witness :
  NeuralNetwork.__layers__ three_layer_network
  = [] ++ nth 0 example_layers (Layer.Build 0 [] None)
       :: computed_layer
       :: [nth 2 (NeuralNetwork.__layers__ three_layer_network)
             (Layer.Build 0 [] None)] /\
  fst (for_acc Layer.backward
         (rev [nth 2 (NeuralNetwork.__layers__ three_layer_network)
                 (Layer.Build 0 [] None)])
         [1; -1]%Q)
  = Ok [-7 # 72; 41 # 144]%Q /\
  fst (Layer.backward [-7 # 72; 41 # 144]%Q computed_layer)
  = Ok [1577 # 25920; 1829 # 25920; 883 # 12960]%Q /\
  length [1577 # 25920; 1829 # 25920; 883 # 12960]%Q
  <> length
       (Layer.__neurons__ (nth 0 example_layers (Layer.Build 0 [] None))) /\
  fst (NeuralNetwork.backward_layers [1; -1]%Q three_layer_network)
  = Raise (Raised AssertionError in_Layer_backward).
Proof.
  split; [reflexivity | ]. split; [vm_compute; reflexivity | ].
  split; [vm_compute; reflexivity | ]. split; [discriminate | ].
  rewrite (@backward_layers_length_mismatch Q (PerceptronSpec.t Q) _ _
             three_layer_network []
             [nth 2 (NeuralNetwork.__layers__ three_layer_network)
                (Layer.Build 0 [] None)]
             (snd (for_acc Layer.backward
                     (rev [nth 2 (NeuralNetwork.__layers__ three_layer_network)
                             (Layer.Build 0 [] None)])
                     [1; -1]%Q))
             (nth 0 example_layers (Layer.Build 0 [] None)) computed_layer
             (snd (Layer.backward [-7 # 72; 41 # 144]%Q computed_layer))
             [1; -1]%Q [-7 # 72; 41 # 144]%Q
             [1577 # 25920; 1829 # 25920; 883 # 12960]%Q).
  - reflexivity.
  - reflexivity.
  - vm_compute. reflexivity.
  - vm_compute. reflexivity.
  - discriminate.
Defined.

Lemma train_instance_rejects_label_witness :
  num_int (2 : Q) = Ok 2%Z /\
  (Z.max 0 (NeuralNetwork.__label_count__ (single_layer_network 1)) <= 2 \/
   2 < - Z.max 0 (NeuralNetwork.__label_count__ (single_layer_network 1)))%Z /\
  NeuralNetwork.train_instance ([1; 0; 1] ++ [2])%Q (single_layer_network 1)
  = (Raise (Raised IndexError in_train_instance), single_layer_network 1).
Proof.
  split; [reflexivity | ]. split; [left; cbn; lia | ].
  apply (@train_instance_rejects_label Q (PerceptronSpec.t Q) _ _
           (single_layer_network 1) [1; 0; 1]%Q 2%Q 2%Z).
  - reflexivity.
  - left. cbn. lia.
Defined.

Lemma train_instance_negative_label_witness :
  num_int (-1 : Q) = Ok (-1)%Z /\
  num_int (1 : Q)
  = Ok (-1 + NeuralNetwork.__label_count__ (single_layer_network 1))%Z /\
  (- NeuralNetwork.__label_count__ (single_layer_network 1) <= -1 < 0)%Z /\
  NeuralNetwork.train_instance ([0; 0; 1] ++ [-1])%Q (single_layer_network 1)
  = NeuralNetwork.train_instance ([0; 0; 1] ++ [1])%Q (single_layer_network 1).
Proof.
  split; [reflexivity | ]. split; [reflexivity | ]. split; [cbn; lia | ].
  apply (@train_instance_negative_label Q (PerceptronSpec.t Q) _ _
           (single_layer_network 1) [0; 0; 1]%Q (-1)%Q 1%Q (-1)%Z).
  - reflexivity.
  - reflexivity.
  - cbn. lia.
Defined.

Lemma test_instance_label_out_of_range_witness :
  num_int (2 : Q) = Ok 2%Z /\
  fst (NeuralNetwork.forward_layers [1; 0; 1]%Q (single_layer_network 1))
  = Ok [1 # 2; 1 # 2]%Q /\
  fst (NeuralNetwork.test_instance ([1; 0; 1] ++ [2])%Q
         (single_layer_network 1))
  = Ok false.
Proof.
  split; [reflexivity | ]. split; [reflexivity | ].
  destruct (@test_instance_label_out_of_range Q (PerceptronSpec.t Q) _ _
              Q_NumberOrder (single_layer_network 1)
              (snd (NeuralNetwork.forward_layers [1; 0; 1]%Q
                      (single_layer_network 1)))
              [1; 0; 1]%Q [1 # 2; 1 # 2]%Q 2%Q 2%Z)
    as [_ H].
  - reflexivity.
  - reflexivity.
  - rewrite H; [reflexivity | discriminate | right; cbn; lia].
Defined.

Lemma test_propagates_exception_witness :
  fst (comprehension NeuralNetwork.test_instance [[1; 0; 1; 1]]%Q
         (single_layer_network 1))
  = Ok [false] /\
  fst (NeuralNetwork.test_instance []
         (snd (comprehension NeuralNetwork.test_instance [[1; 0; 1; 1]]%Q
                 (single_layer_network 1))))
  = Raise (Raised IndexError in_test_instance) /\
  fst (NeuralNetwork.test ([[1; 0; 1; 1]] ++ [] :: [[0; 0; 1; 1]])%Q
         (single_layer_network 1))
  = Raise (Raised IndexError in_test_instance).
Proof.
  split; [reflexivity | ]. split; [reflexivity | ].
  rewrite (@test_propagates_exception Q (PerceptronSpec.t Q) _ _
             (single_layer_network 1)
             (snd (comprehension NeuralNetwork.test_instance
                     [[1; 0; 1; 1]]%Q (single_layer_network 1)))
             (snd (comprehension NeuralNetwork.test_instance
                     [[1; 0; 1; 1]]%Q (single_layer_network 1)))
             [[1; 0; 1; 1]]%Q [[0; 0; 1; 1]]%Q [] [false]
             (Raised IndexError in_test_instance)).
  - reflexivity.
  - reflexivity.
  - reflexivity.
Defined.

Lemma train_stops_at_first_raise_witness :
  (0 < NeuralNetwork.__iteration__ (single_layer_network 3))%Z /\
  NeuralNetwork.train_instance [] (single_layer_network 3)
  = (Raise (Raised IndexError in_train_instance), single_layer_network 3) /\
  NeuralNetwork.train ([] ++ [] :: [[0; 0; 1; 1]])%Q (single_layer_network 3)
  = (Raise (Raised IndexError in_train_instance), single_layer_network 3).
Proof.
  split; [cbn; lia | ]. split; [reflexivity | ].
  apply (@train_stops_at_first_raise Q (PerceptronSpec.t Q) _ _
           (single_layer_network 3) (single_layer_network 3)
           (single_layer_network 3) [] [[0; 0; 1; 1]]%Q []
           (Raised IndexError in_train_instance)).
  - cbn. lia.
  - reflexivity.
  - reflexivity.
Defined.
